(** * relay: the REST client-stub generator (bindings/rest/generator.go)

    A shallow embedding of the generator of client classes and of the
    writer dispatch it relies on, together with the properties of the
    design document that concern them.

    Conventions.
    - Go strings are [string]; concatenation is [+:+].
    - A [*bindings.Type] is a pointer [ptr]: [None] is Go's [nil], [Some l]
      a location of the type heap.  Type descriptions form a graph, not a
      tree: an alias may point back to itself.
    - A Go [panic] is an explicit outcome; infinite recursion shows as a run
      that returns no result whatever fuel it is given. *)

From stdpp Require Import gmap strings list pretty.


(** ** Characters that cannot be written inside a literal *)

Definition dq : string := String (Ascii.ascii_of_nat 34) "".
Definition nl : string := String (Ascii.ascii_of_nat 10) "".
Definition tab : string := String (Ascii.ascii_of_nat 9) "".

(** ** The type model ([bindings.Type] and its [TypeData]) *)

Definition loc := nat.
Definition ptr := option loc.

(** Modelled from the spec: the declarations of package [bindings] are not
    part of the sources at hand.  The field names [AliasFor], [TargetType],
    [InputTypes] and [Name] are the ones generator.go reads; the other fields
    follow section 3 of the design document. *)
Record AliasTypeData := mkAlias { AliasName : string; AliasFor : ptr }.
Record ReferenceTypeData := mkReference { ReferenceName : string; TargetType : ptr }.
Record FunctionTypeData := mkFunction { InputTypes : list ptr; OutputTypes : list ptr }.
Record TupleTypeData := mkTuple { SubTypes : list ptr }.
Record RecordTypeData := mkRecord { Name : string; Fields : list (string * ptr) }.
Record MapTypeData := mkMap { KeyType : ptr; ValueType : ptr }.
Record ListTypeData := mkList { ElementType : ptr }.

(** [Type.TypeData] is an [interface{}]: the type switch of
    [WriterMethodForType] names eight dynamic types, and the field can hold
    anything else as well ([nil], a number, ...), which is [TDOther]. *)
Inductive TypeData : Type :=
  | TDString (name : string)
  | TDAlias (d : AliasTypeData)
  | TDReference (d : ReferenceTypeData)
  | TDFunction (d : FunctionTypeData)
  | TDTuple (d : TupleTypeData)
  | TDRecord (d : RecordTypeData)
  | TDMap (d : MapTypeData)
  | TDList (d : ListTypeData)
  | TDOther.

(** The heap of [bindings.Type] nodes; a node is identified with the contents
    of its [TypeData] field. *)
Abbreviation heap := (gmap loc TypeData).

Definition deref (h : heap) (t : ptr) : option TypeData :=
  match t with
  | Some l => h !! l
  | None => None
  end.

(** Modelled from the spec: [NumInputs] is a method of package [bindings];
    it counts the declared inputs. *)
Definition NumInputs (f : FunctionTypeData) : nat := length (InputTypes f).

(** ** Outcomes of Go code *)

Inductive PanicValue : Type :=
  | ErrorsNew (msg : string)      (* panic(errors.New(msg)) *)
  | NilDereference                (* runtime error: nil pointer dereference *)
  | InterfaceConversion           (* runtime error: failed type assertion *)
  | IndexOutOfRange               (* runtime error: index out of range *)
  | TemplateError (msg : string). (* panic(err), err from text/template *)

Inductive Result (A : Type) : Type :=
  | Return (a : A)
  | Panic (v : PanicValue).
Arguments Return {A} a.
Arguments Panic {A} v.

(** ** [WriterMethodForType] *)

Definition FunctionNotSupported : string := "Function types not supported in GO".
Definition TupleNotSupported : string := "Warning: Tuple types not supported in GO".

(** The recursion follows [AliasFor] and [TargetType] pointers through the
    heap, so it is driven by fuel: [None] means that the fuel ran out. *)
Fixpoint WriterMethodForType (fuel : nat) (h : heap) (t : ptr)
  : option (Result string) :=
  match fuel with
  | 0 => None
  | S fuel =>
    match deref h t with
    | None => Some (Panic NilDereference)
    | Some (TDString typeData) => Some (Return ("Write_" +:+ typeData))
    | Some (TDAlias typeData) => WriterMethodForType fuel h (AliasFor typeData)
    | Some (TDReference typeData) => WriterMethodForType fuel h (TargetType typeData)
    | Some (TDFunction _) => Some (Panic (ErrorsNew FunctionNotSupported))
    | Some (TDTuple _) => Some (Panic (ErrorsNew TupleNotSupported))
    | Some (TDRecord typeData) => Some (Return ("Write_" +:+ Name typeData))
    | Some (TDMap _) => Some (Return "Write_Map")
    | Some (TDList _) => Some (Return "Write_List")
    | Some TDOther => Some (Return "UnknownWriter")
    end
  end.

(** The call [WriterMethodForType(t)] ends with result [r]. *)
Definition writer_result (h : heap) (t : ptr) (r : Result string) : Prop :=
  ∃ fuel, WriterMethodForType fuel h t = Some r.

(** ** Alias and reference chains *)

(** The node an alias or a reference wraps; [None] at any other node. *)
Definition wrapped (h : heap) (t : ptr) : option ptr :=
  match deref h t with
  | Some (TDAlias d) => Some (AliasFor d)
  | Some (TDReference d) => Some (TargetType d)
  | _ => None
  end.

(** The [n]-th node of the chain that starts at [t], if the chain is that
    long. *)
Fixpoint chain_at (h : heap) (n : nat) (t : ptr) : option ptr :=
  match n with
  | 0 => Some t
  | S n => match wrapped h t with
           | Some t' => chain_at h n t'
           | None => None
           end
  end.

(** The chain revisits a node it has already seen. *)
Definition has_cycle (h : heap) (t : ptr) : Prop :=
  ∃ i j x, i < j ∧ chain_at h i t = Some x ∧ chain_at h j t = Some x.

(** ** Errors, writers and templates *)

(** A non-nil Go [error], by its message; an [error] value that may be [nil]
    is an [option error]. *)
Definition error := string.

(** [io.Writer]: a write leaves the writer in a new state and may fail. *)
Class Writer (W : Type) := Write : W → string → W * option error.

(** An in-memory writer such as [bytes.Buffer]: it appends and never fails. *)
Definition Buffer := string.
#[global] Instance Buffer_Writer : Writer Buffer := λ b p, (b +:+ p, None).

(** Modelled from the spec: [HttpBinding] is declared in a file of package
    [rest] that is not part of the sources at hand. *)
Inductive ParameterPlacement := InPath | InQuery | InBody.
Record HttpBinding := mkHttpBinding {
  Method : string;
  EndpointTemplate : string;
  Placement : ParameterPlacement }.

(** [bindings.ITypeSystem], by the one method generator.go calls. *)
Record ITypeSystem := mkTypeSystem { GetType : string → string → ptr }.

(** Modelled from the spec: the implementation of [ITypeSystem] is not part
    of the sources at hand.  A registry keyed by (namespace, name); since
    [GetType] returns a bare [*Type], a lookup miss can only yield [nil]. *)
Definition RegistryTypeSystem (reg : gmap (string * string) loc) : ITypeSystem :=
  {| GetType := λ pkg name, reg !! (pkg, name) |}.

Module G.
Record Generator := mk {
  Bindings : gmap string HttpBinding;
  TypeSystem : ITypeSystem;
  TemplatesDir : string;
  Package : string;
  ClientPackageName : string;
  ServiceName : string;
  ClientPrefix : string;
  ClientSuffix : string;
  httpBindings : gmap string HttpBinding;
  ArgListMaker : option (list ptr → bool → string);
  ServiceType : option RecordTypeData;
  TransportRequest : string;
  OpName : string;
  OpType : option FunctionTypeData;
  OpMethod : string;
  OpEndpoint : string }.

Definition set_ServiceName (v : string) (g : Generator) : Generator :=
  mk (Bindings g) (TypeSystem g) (TemplatesDir g) (Package g)
     (ClientPackageName g) v (ClientPrefix g) (ClientSuffix g)
     (httpBindings g) (ArgListMaker g) (ServiceType g) (TransportRequest g)
     (OpName g) (OpType g) (OpMethod g) (OpEndpoint g).
Definition set_ServiceType (v : option RecordTypeData) (g : Generator) : Generator :=
  mk (Bindings g) (TypeSystem g) (TemplatesDir g) (Package g)
     (ClientPackageName g) (ServiceName g) (ClientPrefix g) (ClientSuffix g)
     (httpBindings g) (ArgListMaker g) v (TransportRequest g)
     (OpName g) (OpType g) (OpMethod g) (OpEndpoint g).
Definition set_OpName (v : string) (g : Generator) : Generator :=
  mk (Bindings g) (TypeSystem g) (TemplatesDir g) (Package g)
     (ClientPackageName g) (ServiceName g) (ClientPrefix g) (ClientSuffix g)
     (httpBindings g) (ArgListMaker g) (ServiceType g) (TransportRequest g)
     v (OpType g) (OpMethod g) (OpEndpoint g).
Definition set_OpType (v : option FunctionTypeData) (g : Generator) : Generator :=
  mk (Bindings g) (TypeSystem g) (TemplatesDir g) (Package g)
     (ClientPackageName g) (ServiceName g) (ClientPrefix g) (ClientSuffix g)
     (httpBindings g) (ArgListMaker g) (ServiceType g) (TransportRequest g)
     (OpName g) v (OpMethod g) (OpEndpoint g).
Definition set_OpMethod (v : string) (g : Generator) : Generator :=
  mk (Bindings g) (TypeSystem g) (TemplatesDir g) (Package g)
     (ClientPackageName g) (ServiceName g) (ClientPrefix g) (ClientSuffix g)
     (httpBindings g) (ArgListMaker g) (ServiceType g) (TransportRequest g)
     (OpName g) (OpType g) v (OpEndpoint g).
Definition set_OpEndpoint (v : string) (g : Generator) : Generator :=
  mk (Bindings g) (TypeSystem g) (TemplatesDir g) (Package g)
     (ClientPackageName g) (ServiceName g) (ClientPrefix g) (ClientSuffix g)
     (httpBindings g) (ArgListMaker g) (ServiceType g) (TransportRequest g)
     (OpName g) (OpType g) (OpMethod g) v.
End G.
Abbreviation Generator := G.Generator.

(** [text/template]: a parsed template is a sequence of text nodes, copied
    to the output, and of actions, evaluated on the data ([*Generator]) to
    the text they print or to an execution error. *)
Inductive Node : Type :=
  | TextNode (text : string)
  | ActionNode (eval : Generator → error + string).
Definition Template := list Node.

(** [Template.Execute]: the nodes are written one after the other; the first
    failing write or action ends the execution with its error. *)
Fixpoint Execute {W} `{Writer W} (templ : Template) (output : W) (g : Generator)
  : W * option error :=
  match templ with
  | [] => (output, None)
  | node :: rest =>
    match (match node with TextNode s => inr s | ActionNode eval => eval g end) with
    | inl e => (output, Some e)
    | inr s =>
      match Write output s with
      | (output, Some e) => (output, Some e)
      | (output, None) => Execute rest output g
      end
    end
  end.

(** ** The monad of the generator's methods

    A method runs on the generator it may assign to and on the writer it
    writes to; it returns, panics, or runs out of fuel. *)
Inductive Outcome (A : Type) : Type :=
  | Done (a : A)
  | Panicked (v : PanicValue)
  | OutOfFuel.
Arguments Done {A} a.
Arguments Panicked {A} v.
Arguments OutOfFuel {A}.

Definition M (W A : Type) : Type := Generator * W → Outcome A * (Generator * W).

#[global] Instance M_ret {W} : MRet (M W) := λ A a s, (Done a, s).
#[global] Instance M_bind {W} : MBind (M W) := λ A B f m s,
  match m s with
  | (Done a, s') => f a s'
  | (Panicked v, s') => (Panicked v, s')
  | (OutOfFuel, s') => (OutOfFuel, s')
  end.

Definition panic {W A} (v : PanicValue) : M W A := λ s, (Panicked v, s).
Definition assign {W} (f : Generator → Generator) : M W unit :=
  λ s, (Done (), (f s.1, s.2)).
Definition self {W} : M W Generator := λ s, (Done s.1, s).
Definition write {W} `{Writer W} (p : string) : M W (option error) :=
  λ s, let '(w, err) := Write s.2 p in (Done err, (s.1, w)).
Definition execute {W} `{Writer W} (templ : Template) : M W (option error) :=
  λ s, let '(w, err) := Execute templ s.2 s.1 in (Done err, (s.1, w)).
Definition call {W A} (r : option (Result A)) : M W A :=
  match r with
  | Some (Return a) => mret a
  | Some (Panic v) => panic v
  | None => λ s, (OutOfFuel, s)
  end.

(** ** The generator *)

Section Generator.
(** The heap is fixed during a generation run.  [Signature] is a method of
    [bindings.Type], whose code is not part of the sources at hand, and
    [ParseFiles] stands for [template.New(name).ParseFiles(path)], which
    reads the template from the file system. *)
Variable h : heap.
Variable Signature : ptr → string.
Variable ParseFiles : string → error + Template.

Fixpoint ArgListMaker_range (index : nat) (paramTypes : list ptr)
    (withNames : bool) (out : string) : string :=
  match paramTypes with
  | [] => out
  | param :: paramTypes =>
    let out := if bool_decide (0 < index)%nat then out +:+ ", " else out in
    let out := if withNames then out +:+ ("arg" +:+ pretty index +:+ " ") else out in
    let out := out +:+ Signature param in
    ArgListMaker_range (S index) paramTypes withNames out
  end.

Definition ArgListMaker (paramTypes : list ptr) (withNames : bool) : string :=
  ArgListMaker_range 0 paramTypes withNames "".

Definition ClientName (g : Generator) : string :=
  G.ClientPrefix g +:+ G.ServiceName g +:+ G.ClientSuffix g.

Definition NewGenerator (bindings : option (gmap string HttpBinding))
    (typeSys : ITypeSystem) (templatesDir : string) : Generator :=
  let bindings := match bindings with Some b => b | None => ∅ end in
  {| G.Bindings := bindings;
     G.TypeSystem := typeSys;
     G.TemplatesDir := templatesDir;
     G.Package := "";
     G.ClientPackageName := "restclient";
     G.ServiceName := "";
     G.ClientPrefix := "";
     G.ClientSuffix := "Client";
     G.httpBindings := ∅;
     G.ArgListMaker := Some ArgListMaker;
     G.ServiceType := None;
     G.TransportRequest := "*http.Request";
     G.OpName := "";
     G.OpType := None;
     G.OpMethod := "";
     G.OpEndpoint := "" |}.

Context {W : Type} `{Writer W}.

(** [EmitClientClass] writes to [os.Stdout], which is the writer of the state
    here.  The type assertion on [TypeData] has no second result: it panics
    on anything but a [*RecordTypeData]. *)
Definition EmitClientClass (pkgName serviceName : string)
  : M W (option error) :=
  assign (G.set_ServiceName serviceName) ;;
  g ← self ;
  typeData ← (match deref h (GetType (G.TypeSystem g) pkgName serviceName) with
              | None => panic NilDereference
              | Some (TDRecord d) => mret d
              | Some _ => panic InterfaceConversion
              end) ;
  assign (G.set_ServiceType (Some typeData)) ;;
  match ParseFiles (G.TemplatesDir g +:+ "client.gen") with
  | inl err => panic (TemplateError err)
  | inr tmpl =>
    err ← execute tmpl ;
    match err with
    | Some e => panic (TemplateError e)
    | None => mret err
    end
  end.

(** The template literal of [StartWritingMethod], parsed. *)
Definition StartWritingMethod_template : Template :=
  [ TextNode (nl +:+ "func (svc *");
    ActionNode (λ g, inr (ClientName g));
    TextNode ") Send";
    ActionNode (λ g, inr (G.OpName g));
    TextNode "Request(";
    ActionNode (λ g,
      match G.OpType g, G.ArgListMaker g with
      | Some opType, Some maker => inr (maker (InputTypes opType) true)
      | None, _ => inl "nil pointer evaluating *bindings.FunctionTypeData.InputTypes"
      | _, None => inl "error calling call: call of nil"
      end);
    TextNode (") (resp *http.Response, error) {" +:+ nl +:+
              tab +:+ "body := bytes.NewBuffer(nil)" +:+ nl +:+
              tab) ].

Definition StartWritingMethod (opName : string) (opType : FunctionTypeData)
    (argPrefix : string) : M W (option error) :=
  err ← execute StartWritingMethod_template ;
  match err with
  | Some e => panic (TemplateError e)
  | None => mret err
  end.

(** The template literal of [EndWritingMethod], parsed. *)
Definition EndWritingMethod_template : Template :=
  [ TextNode (nl +:+ tab +:+ "httpreq, err := http.NewRequest(" +:+ dq);
    ActionNode (λ g, inr (G.OpMethod g));
    TextNode (dq +:+ ", " +:+ dq);
    ActionNode (λ g, inr (G.OpEndpoint g));
    TextNode (dq +:+ ", body)" +:+ nl +:+
              tab +:+ "if err != nil {" +:+ nl +:+
              tab +:+ tab +:+ "return nil, err" +:+ nl +:+
              tab +:+ "}" +:+ nl +:+
              tab +:+ "httpreq.Header.Add(" +:+ dq +:+ "Content-Type" +:+ dq +:+
                ", " +:+ dq +:+ "application/json" +:+ dq +:+ ")" +:+ nl +:+
              tab +:+ "if svc.RequestDecorator != nil {" +:+ nl +:+
              tab +:+ tab +:+ "httpreq, err = svc.RequestDecorator(httpreq)" +:+ nl +:+
              tab +:+ tab +:+ "if err != nil { return nil, err }" +:+ nl +:+
              tab +:+ "}" +:+ nl +:+
              tab +:+ "c := http.Client{}" +:+ nl +:+
              tab +:+ "return c.Do(httpreq)" +:+ nl +:+
              "}" +:+ nl +:+
              tab) ].

Definition EndWritingMethod (opName : string) (opType : FunctionTypeData)
  : M W (option error) :=
  err ← execute EndWritingMethod_template ;
  match err with
  | Some e => panic (TemplateError e)
  | None => mret err
  end.

(** The errors of [output.Write] are dropped by the three functions below. *)
Definition EmitObjectWriterCall (fuel : nat) (key : option nat)
    (argName : string) (argType : ptr) : M W (option error) :=
  callString ← call (WriterMethodForType fuel h argType) ;
  write (callString +:+ "(body, " +:+ argName +:+ ")") ;;
  mret None.

Definition StartWritingList : M W unit := write "[" ;; mret ().

Definition EndWritingList : M W unit := write "]" ;; mret ().

(** The [range] loop of [EmitSendRequestMethod] over [opType.InputTypes]. *)
Fixpoint EmitSendRequestMethod_range (fuel : nat) (index : nat)
    (params : list ptr) : M W unit :=
  match params with
  | [] => mret ()
  | param :: params =>
    EmitObjectWriterCall fuel (Some index) ("arg" +:+ pretty index) param ;;
    EmitSendRequestMethod_range fuel (S index) params
  end.

(** The writer of the state is [output]; [opType] is a pointer that is not
    nil. *)
Definition EmitSendRequestMethod (fuel : nat) (opName : string)
    (opType : FunctionTypeData) (argPrefix : string) : M W (option error) :=
  assign (G.set_OpName opName) ;;
  assign (G.set_OpType (Some opType)) ;;
  assign (G.set_OpMethod "GET") ;;
  assign (G.set_OpEndpoint "http://hello.world/") ;;
  StartWritingMethod opName opType "arg" ;;
  (if bool_decide (0 < NumInputs opType)%nat then
     if bool_decide (NumInputs opType = 1) then
       match InputTypes opType !! 0 with
       | Some argType => EmitObjectWriterCall fuel None "arg0" argType ;; mret ()
       | None => panic IndexOutOfRange
       end
     else
       StartWritingList ;;
       EmitSendRequestMethod_range fuel 0 (InputTypes opType) ;;
       EndWritingList
   else mret ()) ;;
  EndWritingMethod opName opType ;;
  mret None.

End Generator.

(** * Texts, samples and auxiliary notions *)

(** ** The text of an emitted method, piece by piece *)

Definition method_header (clientName opName argList : string) : string :=
  nl +:+ "func (svc *" +:+ clientName +:+ ") Send" +:+ opName +:+ "Request(" +:+
  argList +:+ ") (resp *http.Response, error) {" +:+ nl +:+
  tab +:+ "body := bytes.NewBuffer(nil)" +:+ nl +:+
  tab.

Definition request_construction (method endpoint : string) : string :=
  "http.NewRequest(" +:+ dq +:+ method +:+ dq +:+ ", " +:+ dq +:+ endpoint +:+ dq +:+
  ", body)".

(** What follows the request construction in the method. *)
Definition method_closing : string :=
  nl +:+
  tab +:+ "if err != nil {" +:+ nl +:+
  tab +:+ tab +:+ "return nil, err" +:+ nl +:+
  tab +:+ "}" +:+ nl +:+
  tab +:+ "httpreq.Header.Add(" +:+ dq +:+ "Content-Type" +:+ dq +:+
    ", " +:+ dq +:+ "application/json" +:+ dq +:+ ")" +:+ nl +:+
  tab +:+ "if svc.RequestDecorator != nil {" +:+ nl +:+
  tab +:+ tab +:+ "httpreq, err = svc.RequestDecorator(httpreq)" +:+ nl +:+
  tab +:+ tab +:+ "if err != nil { return nil, err }" +:+ nl +:+
  tab +:+ "}" +:+ nl +:+
  tab +:+ "c := http.Client{}" +:+ nl +:+
  tab +:+ "return c.Do(httpreq)" +:+ nl +:+
  "}" +:+ nl +:+
  tab.

Definition method_footer (method endpoint : string) : string :=
  nl +:+ tab +:+ "httpreq, err := " +:+ request_construction method endpoint +:+
  method_closing.

(** The writer call for one argument. *)
Definition writer_call (writerName argName : string) : string :=
  writerName +:+ "(body, " +:+ argName +:+ ")".

(** The writer calls for the writer names [ws], one per argument, in order. *)
Definition writer_calls (ws : list string) : list string :=
  imap (λ index w, writer_call w ("arg" +:+ pretty index)) ws.

Definition concat_all (ss : list string) : string := foldr String.append "" ss.

(** The serialization part of a method by the number of inputs: nothing for
    none, the single call for one, the calls between brackets for more. *)
Definition request_body (ws : list string) : string :=
  match ws with
  | [] => ""
  | [w] => writer_call w "arg0"
  | _ => "[" +:+ concat_all (writer_calls ws) +:+ "]"
  end.

(** The generator once [EmitSendRequestMethod] has made its assignments. *)
Definition assigned (opName : string) (opType : FunctionTypeData) (g : Generator)
  : Generator :=
  G.set_OpEndpoint "http://hello.world/"
    (G.set_OpMethod "GET" (G.set_OpType (Some opType) (G.set_OpName opName g))).

(** The writer name of every type of [ts], in order, with fuel [fuel]. *)
Definition writer_names (h : heap) (fuel : nat) (ts : list ptr)
    (ws : list string) : Prop :=
  Forall2 (λ t w, WriterMethodForType fuel h t = Some (Return w)) ts ws.

(** The writer calls for arguments numbered from [index] on. *)
Definition writer_calls_from (index : nat) (ws : list string) : list string :=
  imap (λ i w, writer_call w ("arg" +:+ pretty (index + i))) ws.

(** What has been written after the header when the emission stops at an
    argument: nothing for a single input, else the opening bracket and the
    calls for the arguments before it. *)
Definition partial_body (numInputs : nat) (ws : list string) : string :=
  if bool_decide (numInputs = 1) then ""
  else "[" +:+ concat_all (writer_calls ws).

(** ** The argument list in the words of the design document *)

(** One rendered parameter: its index-named name, if asked for, and the
    signature of its type. *)
Definition parameter (Signature : ptr → string) (withNames : bool)
    (index : nat) (t : ptr) : string :=
  if withNames then ("arg" +:+ pretty index +:+ " ") +:+ Signature t
  else Signature t.

(** The argument list in the words of the design document: the rendered
    parameters, comma-joined in order. *)
Definition comma_joined (Signature : ptr → string) (withNames : bool)
    (paramTypes : list ptr) : string :=
  String.concat ", " (imap (parameter Signature withNames) paramTypes).

(** A method only appends to a buffer it writes to. *)
Definition appends {A} (m : M Buffer A) : Prop :=
  ∀ g out, ∃ x, (m (g, out)).2.2 = out +:+ x.

(** The opening of a method up to its parameters. *)
Definition method_opening (clientName opName : string) : string :=
  nl +:+ "func (svc *" +:+ clientName +:+ ") Send" +:+ opName +:+ "Request(".

(** ** Sample type graphs *)

(** [type Name = string]: node 0 is the primitive, node 1 an alias of it,
    node 2 a reference to the alias. *)
Definition string_alias_heap : heap :=
  {[ 0 := TDString "string";
     1 := TDAlias (mkAlias "Name" (Some 0));
     2 := TDReference (mkReference "NameRef" (Some 1)) ]}.

(** An alias whose target is the alias itself. *)
Definition self_alias_heap : heap :=
  {[ 0 := TDAlias (mkAlias "Loop" (Some 0)) ]}.


(** ** A sample service *)

Definition SayHello : FunctionTypeData := mkFunction [Some 0] [Some 0].
Definition Greeter : RecordTypeData := mkRecord "Greeter" [("SayHello", Some 1)].
Definition Team : RecordTypeData := mkRecord "Team" [("Name", Some 0)].

Definition sample_heap : heap :=
  {[ 0 := TDString "string";
     1 := TDFunction SayHello;
     2 := TDRecord Greeter;
     3 := TDAlias (mkAlias "Service" (Some 2));
     4 := TDRecord Team;
     5 := TDTuple (mkTuple [Some 0; Some 0]) ]}.

Definition sample_registry : gmap (string * string) loc :=
  {[ ("pkg", "string") := 0; ("pkg", "Greeter") := 2; ("pkg", "Service") := 3;
     ("pkg", "Team") := 4 ]}.

(** A stand-in for [Type.Signature], to have one to run the generator with:
    the name of a primitive, a pointer to a record. *)
Definition sample_Signature (t : ptr) : string :=
  match deref sample_heap t with
  | Some (TDString name) => name
  | Some (TDRecord d) => "*" +:+ Name d
  | _ => "interface{}"
  end.

(** A stand-in for the template file [client.gen]. *)
Definition sample_client_gen : Template :=
  [ TextNode "package ";
    ActionNode (λ g, inr (G.ClientPackageName g));
    TextNode (nl +:+ nl +:+ "type ");
    ActionNode (λ g, inr (ClientName g));
    TextNode (" struct {" +:+ nl +:+ "}" +:+ nl) ].

Definition sample_ParseFiles (path : string) : error + Template :=
  if decide (path = "templates/client.gen") then inr sample_client_gen
  else inl ("open " +:+ path +:+ ": no such file or directory").

Definition sample_generator : Generator :=
  NewGenerator sample_Signature None (RegistryTypeSystem sample_registry) "templates/".

(** The same generator with a binding table that has an entry for
    [CreateTeam]. *)
Definition bound_generator : Generator :=
  NewGenerator sample_Signature
    (Some {[ "CreateTeam" := mkHttpBinding "POST" "/teams" InBody ]})
    (RegistryTypeSystem sample_registry) "templates/".

(** A writer that is closed: every write fails. *)
Inductive Closed := closed.
#[global] Instance Closed_Writer : Writer Closed :=
  λ w _, (w, Some "write on closed writer").

(** ** Notions for the further properties *)

(** Two heaps hold the same at every node of the chain that starts at [t]. *)
Definition agree_on_chain (h h' : heap) (t : ptr) : Prop :=
  ∀ n x, chain_at h n t = Some x → deref h x = deref h' x.

(** The state of a writer after the writes of [ps], in order, whatever errors
    they report. *)
Definition write_all {W} `{Writer W} (w : W) (ps : list string) : W :=
  foldl (λ w p, (Write w p).1) w ps.

(** A method leaves the generator as it found it. *)
Definition keeps {W A} (m : M W A) : Prop :=
  ∀ g w, (m (g, w)).2.1 = g.

(** The texts [EmitSendRequestMethod] writes between the two templates, by
    the number of inputs. *)
Definition body_writes (ws : list string) : list string :=
  match ws with
  | [] => []
  | [w] => [writer_call w "arg0"]
  | _ => "[" :: writer_calls ws ++ ["]"]
  end.

(** A writer that rejects the texts that start with [Write_] or with a
    bracket, and appends the others. *)
Inductive Picky := picky (accepted : string).
#[global] Instance Picky_Writer : Writer Picky := λ w p,
  let '(picky b) := w in
  if String.prefix "Write_" p || String.prefix "[" p || String.prefix "]" p
  then (w, Some "rejected")
  else (picky (b +:+ p), None).

(** A writer with a quota of writes: it appends until the quota is used up
    and fails from then on. *)
Record Limited := limited { quota : nat; written : string }.
#[global] Instance Limited_Writer : Writer Limited := λ w p,
  match quota w with
  | 0 => (w, Some "quota exceeded")
  | S n => (limited n (written w +:+ p), None)
  end.

(** Two generators that differ at most in the output types of the operation
    they hold. *)
Definition same_but_outputs (g g' : Generator) : Prop :=
  ∃ ins outs outs',
    G.OpType g = Some (mkFunction ins outs) ∧
    g' = G.set_OpType (Some (mkFunction ins outs')) g.

(** A method whose outcome and writes are the same on two such generators. *)
Definition blind {W A} (m : M W A) : Prop :=
  ∀ g g' w, same_but_outputs g g' →
    (m (g, w)).1 = (m (g', w)).1 ∧ (m (g, w)).2.2 = (m (g', w)).2.2.

(** The part of [EmitSendRequestMethod] between the two templates. *)
Definition arguments_part {W} `{Writer W} (h : heap) (fuel : nat)
    (opType : FunctionTypeData) : M W unit :=
  if bool_decide (0 < NumInputs opType)%nat then
    if bool_decide (NumInputs opType = 1) then
      match InputTypes opType !! 0 with
      | Some argType => EmitObjectWriterCall h fuel None "arg0" argType ;; mret ()
      | None => panic IndexOutOfRange
      end
    else
      StartWritingList ;;
      EmitSendRequestMethod_range h fuel 0 (InputTypes opType) ;;
      EndWritingList
  else mret ().

(** ** The API client (package goclient)

    The client is glue around functions of its package and of its imports
    whose code is not part of the sources at hand ([MakeRequest],
    [SendRequest], the request constructors, [utils.ID2String], the
    [Authenticator] interface): they are the variables of the section.  What
    [log.Println] prints is left out. *)
Module GoClient.

(** [http.Response], by the two fields the client reads. *)
Record Response := mkResponse { StatusCode : Z; Status : string }.

Section ApiClient.
Variables Authenticator Request Body Registration Team Channel ChannelMember : Type.

Record ApiClient := mkApiClient {
  Url : string;
  Authenticator_ : option Authenticator }.

Variable MakeRequest :
  string → string → gmap string string → option Body → option Request * option error.
(** [AuthenticateRequest] works on the request it is given: the result is the
    request after the call. *)
Variable AuthenticateRequest : Authenticator → option Request → option Request.
Variable NewConfirmRegistrationRequest :
  option Registration → string → option Request * option error.
(** The second argument tells whether a place for the decoded body is passed
    ([false] for [nil]). *)
Variable SendRequest : option Request → bool → option Response * option error.
Variable TeamId : Team → string.

Definition NewApiClient (url : string) : ApiClient :=
  {| Url := url; Authenticator_ := None |}.

Definition url (client : ApiClient) (path : string) : string :=
  let out := Url client in
  if String.prefix "/" path then out +:+ path
  else out +:+ "/" +:+ path.

Definition EnableAuthentication (client : ApiClient) (auth : option Authenticator)
  : ApiClient :=
  {| Url := Url client; Authenticator_ := auth |}.

Definition DisableAuthentication (client : ApiClient) : ApiClient :=
  {| Url := Url client; Authenticator_ := None |}.

Definition MakeAuthRequest (client : ApiClient) (method endpoint : string)
    (queryParams : gmap string string) (body : option Body)
  : option Request * option error :=
  let '(request, err) := MakeRequest method (url client endpoint) queryParams body in
  match err with
  | Some e => (None, Some e)
  | None =>
    match Authenticator_ client with
    | Some auth => (AuthenticateRequest auth request, None)
    | None => (request, None)
    end
  end.

Definition ConfirmRegistration (client : ApiClient)
    (registration : option Registration) (verificationCode : string)
  : Result (option error) :=
  let '(req, err) := NewConfirmRegistrationRequest registration verificationCode in
  let '(resp, err) := SendRequest req false in
  match err with
  | Some e =>
    match resp with
    | None => Panic NilDereference
    | Some resp =>
      if bool_decide (StatusCode resp = 400%Z) then
        Return (Some "Confirmation failed")
      else if bool_decide (StatusCode resp ≠ 200%Z) then
        Return (Some (Status resp))
      else Return err
    end
  | None => Return err
  end.

(** [TeamId team] stands for [utils.ID2String(team.Id)]. *)
Definition GetChannels (client : ApiClient) (team : option Team) (owner : string)
    (participants : list string) (matchall : bool) (order_by : string)
  : Result (option (list Channel) * option (list (list ChannelMember)) * option error) :=
  let params : gmap string string :=
    {[ "owner" := owner;
       "participants" := String.concat "," participants;
       "matchall" := "false" ]} in
  let params := if matchall then <[ "matchall" := "true" ]> params else params in
  match team with
  | None => Panic NilDereference
  | Some team =>
    let url := "/teams/" +:+ TeamId team +:+ "/channels/" in
    let '(req, err) := MakeAuthRequest client "GET" url params None in
    let '(resp, err) := SendRequest req true in
    match err with
    | Some e => Return (None, None, Some e)
    | None =>
      match resp with
      | None => Panic NilDereference
      | Some resp =>
        if bool_decide (StatusCode resp ≠ 200%Z) then
          Return (None, None, Some (Status resp))
        else Return (None, None, None)
      end
    end
  end.

End ApiClient.
End GoClient.

(** * Properties *)

(** ** Strings *)

Lemma append_assoc (a b c : string) : (a +:+ b) +:+ c = a +:+ (b +:+ c).
Proof.
  induction a as [|x a IH]; [reflexivity|].
  change (String x ((a +:+ b) +:+ c) = String x (a +:+ (b +:+ c))).
  by rewrite IH.
Qed.

Lemma append_nil_r (a : string) : a +:+ "" = a.
Proof.
  induction a as [|x a IH]; [reflexivity|].
  change (String x (a +:+ "") = String x a). by rewrite IH.
Qed.

(** ** The writer dispatch *)

Lemma WriterMethodForType_wrapped h t t' fuel :
  wrapped h t = Some t' →
  WriterMethodForType (S fuel) h t = WriterMethodForType fuel h t'.
Proof.
  unfold wrapped. simpl.
  destruct (deref h t) as [[]|]; intros [= <-] || intros [=]; reflexivity.
Qed.

Lemma WriterMethodForType_unwrapped h t fuel :
  wrapped h t = None →
  WriterMethodForType (S fuel) h t = WriterMethodForType 1 h t.
Proof.
  unfold wrapped. simpl.
  destruct (deref h t) as [[]|]; intros [=]; reflexivity.
Qed.

Lemma WriterMethodForType_mono h fuel fuel' t r :
  WriterMethodForType fuel h t = Some r → fuel ≤ fuel' →
  WriterMethodForType fuel' h t = Some r.
Proof.
  revert fuel' t. induction fuel as [|fuel IH]; intros fuel' t Hr Hle.
  - discriminate.
  - destruct fuel' as [|fuel']; [lia|].
    destruct (wrapped h t) as [t'|] eqn:Hw.
    + rewrite (WriterMethodForType_wrapped h t t' fuel Hw) in Hr.
      rewrite (WriterMethodForType_wrapped h t t' fuel' Hw).
      apply IH; [done | lia].
    + rewrite (WriterMethodForType_unwrapped h t fuel Hw) in Hr.
      by rewrite (WriterMethodForType_unwrapped h t fuel' Hw).
Qed.

(** Along a chain of [n] wrappers the call needs [n] more units of fuel. *)
Lemma WriterMethodForType_chain h n t t' fuel :
  chain_at h n t = Some t' →
  WriterMethodForType (n + fuel) h t = WriterMethodForType fuel h t'.
Proof.
  revert t. induction n as [|n IH]; intros t; simpl.
  - by intros [= ->].
  - destruct (wrapped h t) as [t1|] eqn:Hw; [|done].
    intros Hc. rewrite <- (IH _ Hc).
    by apply (WriterMethodForType_wrapped h t t1 (n + fuel)).
Qed.

(** With too little fuel for the chain the call has no result yet. *)
Lemma WriterMethodForType_short h n t t' fuel :
  chain_at h n t = Some t' → fuel ≤ n →
  WriterMethodForType fuel h t = None.
Proof.
  revert n t. induction fuel as [|fuel IH]; intros n t Hc Hle; [done|].
  destruct n as [|n]; [lia|]. simpl in Hc.
  destruct (wrapped h t) as [t1|] eqn:Hw; [|done].
  rewrite (WriterMethodForType_wrapped _ _ _ _ Hw).
  apply (IH n); [done | lia].
Qed.

Lemma chain_at_add h i k t :
  chain_at h (i + k) t = chain_at h i t ≫= chain_at h k.
Proof.
  revert t. induction i as [|i IH]; intros t; simpl; [done|].
  destruct (wrapped h t); [apply IH | done].
Qed.

Lemma chain_at_prefix h i k t :
  is_Some (chain_at h (i + k) t) → is_Some (chain_at h i t).
Proof.
  rewrite chain_at_add. destruct (chain_at h i t); [eauto | by intros [? [=]]].
Qed.

(** A chain that revisits a node has a node at every position. *)
Lemma has_cycle_unbounded h t :
  has_cycle h t → ∀ n, is_Some (chain_at h n t).
Proof.
  intros (i & j & x & Hij & Hi & Hj) n.
  assert (Hloop : chain_at h (j - i) x = Some x).
  { replace j with (i + (j - i)) in Hj by lia.
    rewrite chain_at_add, Hi in Hj. exact Hj. }
  assert (Hrep : ∀ m, chain_at h (i + m * (j - i)) t = Some x).
  { induction m as [|m IHm].
    - by replace (i + 0 * (j - i)) with i by lia.
    - replace (i + S m * (j - i)) with ((i + m * (j - i)) + (j - i)) by lia.
      rewrite chain_at_add, IHm. exact Hloop. }
  apply (chain_at_prefix h n (i + n * (j - i) - n)).
  replace (n + (i + n * (j - i) - n)) with (i + n * (j - i)) by nia.
  rewrite Hrep. eauto.
Qed.

(** C8. The writer is chosen on the resolved type: the call on an alias or on
    a reference has exactly the results of the call on the wrapped type, and
    at a primitive, record, map or list node the name is [Write_] followed by
    the primitive's or record's name, [Write_Map] or [Write_List]. *)
Theorem WriterMethodForType_resolved (h : heap) (t : ptr) :
  (∀ d, deref h t = Some (TDAlias d) →
     (∀ fuel, WriterMethodForType (S fuel) h t = WriterMethodForType fuel h (AliasFor d)) ∧
     (∀ r, writer_result h t r ↔ writer_result h (AliasFor d) r)) ∧
  (∀ d, deref h t = Some (TDReference d) →
     (∀ fuel, WriterMethodForType (S fuel) h t = WriterMethodForType fuel h (TargetType d)) ∧
     (∀ r, writer_result h t r ↔ writer_result h (TargetType d) r)) ∧
  (∀ name, deref h t = Some (TDString name) →
     ∀ fuel, WriterMethodForType (S fuel) h t = Some (Return ("Write_" +:+ name))) ∧
  (∀ d, deref h t = Some (TDRecord d) →
     ∀ fuel, WriterMethodForType (S fuel) h t = Some (Return ("Write_" +:+ Name d))) ∧
  (∀ d, deref h t = Some (TDMap d) →
     ∀ fuel, WriterMethodForType (S fuel) h t = Some (Return "Write_Map")) ∧
  (∀ d, deref h t = Some (TDList d) →
     ∀ fuel, WriterMethodForType (S fuel) h t = Some (Return "Write_List")).
Proof.
  assert (Hwrap : ∀ t', wrapped h t = Some t' →
            ∀ r, writer_result h t r ↔ writer_result h t' r).
  { intros t' Hw r. split; intros [fuel Hr].
    - destruct fuel as [|fuel]; [discriminate|].
      exists fuel. by rewrite <- (WriterMethodForType_wrapped h t t' fuel Hw).
    - exists (S fuel). by rewrite (WriterMethodForType_wrapped h t t' fuel Hw). }
  split_and!.
  - intros d Hd. split; [intros fuel; simpl; by rewrite Hd|].
    apply Hwrap. unfold wrapped. by rewrite Hd.
  - intros d Hd. split; [intros fuel; simpl; by rewrite Hd|].
    apply Hwrap. unfold wrapped. by rewrite Hd.
  - intros name Hd fuel. simpl. by rewrite Hd.
  - intros d Hd fuel. simpl. by rewrite Hd.
  - intros d Hd fuel. simpl. by rewrite Hd.
  - intros d Hd fuel. simpl. by rewrite Hd.
Qed.

Lemma WriterMethodForType_resolved_witness :
  (writer_result string_alias_heap (Some 2) (Return "Write_string") ↔
   writer_result string_alias_heap (Some 1) (Return "Write_string")) ∧
  (writer_result string_alias_heap (Some 1) (Return "Write_string") ↔
   writer_result string_alias_heap (Some 0) (Return "Write_string")) ∧
  WriterMethodForType 1 string_alias_heap (Some 0) = Some (Return "Write_string").
Proof.
  split; [|split].
  - apply (proj1 (proj2 (WriterMethodForType_resolved string_alias_heap (Some 2)))
             (mkReference "NameRef" (Some 1)) eq_refl).
  - apply (proj1 (WriterMethodForType_resolved string_alias_heap (Some 1))
             (mkAlias "Name" (Some 0)) eq_refl).
  - apply (proj1 (proj2 (proj2 (WriterMethodForType_resolved string_alias_heap (Some 0))))
             "string").
    reflexivity.
Defined.

(** C2, as stated, fails: on an alias that is its own target the call has no
    result at all, neither a name nor a failure. *)
Lemma WriterMethodForType_self_alias :
  has_cycle self_alias_heap (Some 0) ∧
  ∀ fuel, WriterMethodForType fuel self_alias_heap (Some 0) = None.
Proof.
  split.
  - exists 0, 1, (Some 0). split; [lia|]. split; reflexivity.
  - induction fuel as [|fuel IH]; [reflexivity|].
    rewrite (WriterMethodForType_wrapped self_alias_heap (Some 0) (Some 0) fuel);
      [exact IH | reflexivity].
Qed.

(** C2, amended. There is no cycle guard: on a type whose alias and reference
    chain revisits a node, the call never returns a name and never fails; the
    recursion does not end. *)
Theorem WriterMethodForType_cycle (h : heap) (t : ptr) :
  has_cycle h t →
  (∀ fuel, WriterMethodForType fuel h t = None) ∧
  (∀ r, ¬ writer_result h t r).
Proof.
  intros Hc.
  assert (Hnone : ∀ fuel, WriterMethodForType fuel h t = None).
  { intros fuel.
    destruct (has_cycle_unbounded h t Hc fuel) as [t' Ht'].
    by apply (WriterMethodForType_short h fuel t t' fuel). }
  split; [exact Hnone|].
  intros r [fuel Hr]. rewrite Hnone in Hr. discriminate.
Qed.

Lemma WriterMethodForType_cycle_witness :
  has_cycle self_alias_heap (Some 0) ∧
  (∀ fuel, WriterMethodForType fuel self_alias_heap (Some 0) = None) ∧
  (∀ r, ¬ writer_result self_alias_heap (Some 0) r).
Proof.
  assert (Hc : has_cycle self_alias_heap (Some 0)).
  { exists 0, 1, (Some 0). split; [lia|]. split; reflexivity. }
  split; [exact Hc|].
  exact (WriterMethodForType_cycle self_alias_heap (Some 0) Hc).
Defined.




(** ** Running the generator's methods *)

Lemma bind_Done {W A B} (m : M W A) (f : A → M W B) s a s' :
  m s = (Done a, s') → (m ≫= f) s = f a s'.
Proof. intros Hm. unfold mbind, M_bind. by rewrite Hm. Qed.

Lemma bind_ret {W A B} (a : A) (f : A → M W B) s : (mret a ≫= f) s = f a s.
Proof. reflexivity. Qed.

Lemma bind_Panicked {W A B} (m : M W A) (f : A → M W B) s v s' :
  m s = (Panicked v, s') → (m ≫= f) s = (Panicked v, s').
Proof. intros Hm. unfold mbind, M_bind. by rewrite Hm. Qed.

Lemma bind_Done_inv {W A B} (m : M W A) (f : A → M W B) s b s' :
  (m ≫= f) s = (Done b, s') →
  ∃ a s1, m s = (Done a, s1) ∧ f a s1 = (Done b, s').
Proof.
  unfold mbind, M_bind. destruct (m s) as [[a| | ] s1]; [eauto | done | done].
Qed.

Ltac run_assign :=
  match goal with
  | |- context [ (assign ?f ≫= ?k) (?g, ?out) ] =>
    rewrite (bind_Done (assign f) k (g, out) () (f g, out) eq_refl)
  end.

Ltac run_self :=
  match goal with
  | |- context [ (self ≫= ?k) (?g, ?out) ] =>
    rewrite (bind_Done self k (g, out) g (g, out) eq_refl)
  end.

Ltac string_assoc :=
  cbn [fst snd]; rewrite ?append_assoc, ?append_nil_r; try reflexivity.

Section OnBuffer.
Variable h : heap.

Lemma StartWritingMethod_Buffer (g : Generator) (out : Buffer) opName opType
    argPrefix maker opType' :
  G.ArgListMaker g = Some maker → G.OpType g = Some opType' →
  StartWritingMethod opName opType argPrefix (g, out) =
    (Done None,
     (g, out +:+ method_header (ClientName g) (G.OpName g)
                   (maker (InputTypes opType') true))).
Proof.
  intros Hm Ho.
  unfold StartWritingMethod, execute, StartWritingMethod_template, mbind, M_bind.
  simpl. rewrite Hm, Ho. unfold Write, Buffer_Writer. simpl.
  unfold mret, M_ret, method_header. string_assoc.
Qed.

Lemma EndWritingMethod_Buffer (g : Generator) (out : Buffer) opName opType :
  EndWritingMethod opName opType (g, out) =
    (Done None, (g, out +:+ method_footer (G.OpMethod g) (G.OpEndpoint g))).
Proof.
  unfold EndWritingMethod, execute, EndWritingMethod_template, mbind, M_bind.
  simpl. unfold Write, Buffer_Writer. simpl.
  unfold mret, M_ret, method_footer, method_closing, request_construction.
  string_assoc.
Qed.

Lemma EmitObjectWriterCall_Buffer (g : Generator) (out : Buffer) fuel key
    argName argType :
  EmitObjectWriterCall h fuel key argName argType (g, out) =
    match WriterMethodForType fuel h argType with
    | Some (Return w) => (Done None, (g, out +:+ writer_call w argName))
    | Some (Panic v) => (Panicked v, (g, out))
    | None => (OutOfFuel, (g, out))
    end.
Proof.
  unfold EmitObjectWriterCall, mbind, M_bind, call.
  destruct (WriterMethodForType fuel h argType) as [[w|v]|]; reflexivity.
Qed.

Lemma writer_calls_from_cons index w ws :
  writer_calls_from index (w :: ws) =
    writer_call w ("arg" +:+ pretty index) :: writer_calls_from (S index) ws.
Proof.
  unfold writer_calls_from. rewrite imap_cons. f_equal.
  - by rewrite Nat.add_0_r.
  - apply imap_ext. intros i x _. simpl. by rewrite Nat.add_succ_r.
Qed.

Lemma writer_calls_from_0 ws : writer_calls_from 0 ws = writer_calls ws.
Proof. reflexivity. Qed.

Lemma concat_all_app ss1 ss2 :
  concat_all (ss1 ++ ss2) = concat_all ss1 +:+ concat_all ss2.
Proof.
  induction ss1 as [|s ss1 IH]; [reflexivity|].
  simpl. rewrite IH. by rewrite append_assoc.
Qed.

(** The loop over a prefix of arguments that all have a writer: their calls
    are written and the loop goes on with the rest. *)
Lemma EmitSendRequestMethod_range_app (g : Generator) (out : Buffer) fuel
    index pre rest ws :
  writer_names h fuel pre ws →
  EmitSendRequestMethod_range h fuel index (pre ++ rest) (g, out) =
  EmitSendRequestMethod_range h fuel (index + length pre) rest
    (g, out +:+ concat_all (writer_calls_from index ws)).
Proof.
  intros Hws. revert index out.
  induction Hws as [|t w pre ws Hw _ IH]; intros index out.
  - simpl. by rewrite Nat.add_0_r, append_nil_r.
  - simpl app. cbn [EmitSendRequestMethod_range].
    rewrite (bind_Done _ _ _ None (g, out +:+ writer_call w ("arg" +:+ pretty index))).
    2:{ rewrite EmitObjectWriterCall_Buffer. by rewrite Hw. }
    rewrite IH, writer_calls_from_cons. simpl length.
    rewrite Nat.add_succ_r. simpl. by rewrite append_assoc.
Qed.

Lemma EmitSendRequestMethod_range_ok (g : Generator) (out : Buffer) fuel
    index ts ws :
  writer_names h fuel ts ws →
  EmitSendRequestMethod_range h fuel index ts (g, out) =
    (Done (), (g, out +:+ concat_all (writer_calls_from index ws))).
Proof.
  intros Hws.
  pose proof (EmitSendRequestMethod_range_app g out fuel index ts [] ws Hws) as E.
  rewrite app_nil_r in E. by rewrite E.
Qed.

(** The loop stops at the first argument whose type has no writer; the
    calls of the arguments before it have been written. *)
Lemma EmitSendRequestMethod_range_panic (g : Generator) (out : Buffer) fuel
    index pre t post ws v :
  writer_names h fuel pre ws →
  WriterMethodForType fuel h t = Some (Panic v) →
  EmitSendRequestMethod_range h fuel index (pre ++ t :: post) (g, out) =
    (Panicked v, (g, out +:+ concat_all (writer_calls_from index ws))).
Proof.
  intros Hws Ht.
  rewrite (EmitSendRequestMethod_range_app g out fuel index pre (t :: post) ws Hws).
  cbn [EmitSendRequestMethod_range].
  apply bind_Panicked. rewrite EmitObjectWriterCall_Buffer. by rewrite Ht.
Qed.

Lemma EmitSendRequestMethod_prologue (g : Generator) (out : Buffer)
    opName opType maker (k : M Buffer (option error)) :
  G.ArgListMaker g = Some maker →
  (assign (G.set_OpName opName) ;;
   assign (G.set_OpType (Some opType)) ;;
   assign (G.set_OpMethod "GET") ;;
   assign (G.set_OpEndpoint "http://hello.world/") ;;
   StartWritingMethod opName opType "arg" ;;
   k) (g, out) =
  k (assigned opName opType g,
     out +:+ method_header (ClientName g) opName (maker (InputTypes opType) true)).
Proof.
  intros Hm. do 4 run_assign.
  by rewrite (bind_Done _ _ _ _ _
    (StartWritingMethod_Buffer (assigned opName opType g) out opName opType
       "arg" maker opType Hm eq_refl)).
Qed.

(** Every input has a writer: the whole method is written. *)
Lemma EmitSendRequestMethod_Buffer_ok (g : Generator) (out : Buffer) fuel
    opName opType argPrefix maker ws :
  G.ArgListMaker g = Some maker →
  writer_names h fuel (InputTypes opType) ws →
  EmitSendRequestMethod h fuel opName opType argPrefix (g, out) =
    (Done None,
     (assigned opName opType g,
      out +:+ method_header (ClientName g) opName (maker (InputTypes opType) true)
          +:+ request_body ws
          +:+ method_footer "GET" "http://hello.world/")).
Proof.
  intros Hm Hws. unfold EmitSendRequestMethod.
  rewrite (EmitSendRequestMethod_prologue g out opName opType maker _ Hm).
  unfold NumInputs.
  destruct Hws as [|t w ts ws Hw Hws].
  - simpl length. rewrite bool_decide_eq_false_2 by lia.
    rewrite bind_ret.
    rewrite (bind_Done _ _ _ _ _ (EndWritingMethod_Buffer _ _ _ _)).
    unfold mret, M_ret. simpl. string_assoc.
  - destruct Hws as [|t2 w2 ts ws Hw2 Hws].
    + simpl length. rewrite bool_decide_eq_true_2 by lia.
      rewrite bool_decide_eq_true_2 by lia. simpl lookup.
      erewrite bind_Done; last first.
      { erewrite bind_Done; [reflexivity|].
        rewrite EmitObjectWriterCall_Buffer. by rewrite Hw. }
      rewrite (bind_Done _ _ _ _ _ (EndWritingMethod_Buffer _ _ _ _)).
      unfold mret, M_ret. simpl. string_assoc.
    + simpl length. rewrite bool_decide_eq_true_2 by lia.
      rewrite bool_decide_eq_false_2 by lia.
      erewrite bind_Done; last first.
      { unfold StartWritingList, EndWritingList.
        erewrite bind_Done; last first.
        { reflexivity. }
        cbn [fst snd].
        erewrite bind_Done; last first.
        { apply (EmitSendRequestMethod_range_ok _ _ fuel 0
                   (t :: t2 :: ts) (w :: w2 :: ws)).
          by repeat constructor. }
        reflexivity. }
      rewrite (bind_Done _ _ _ _ _ (EndWritingMethod_Buffer _ _ _ _)).
      unfold mret, M_ret, request_body.
      change (writer_calls_from 0) with writer_calls. string_assoc.
Qed.

(** Some input has no writer: the emission panics at the first such input
    and leaves the header and the calls written so far in the output. *)
Lemma EmitSendRequestMethod_Buffer_panic (g : Generator) (out : Buffer) fuel
    opName opType argPrefix maker pre t post ws v :
  G.ArgListMaker g = Some maker →
  InputTypes opType = pre ++ t :: post →
  writer_names h fuel pre ws →
  WriterMethodForType fuel h t = Some (Panic v) →
  EmitSendRequestMethod h fuel opName opType argPrefix (g, out) =
    (Panicked v,
     (assigned opName opType g,
      out +:+ method_header (ClientName g) opName (maker (InputTypes opType) true)
          +:+ partial_body (NumInputs opType) ws)).
Proof.
  intros Hm Hin Hws Ht. unfold EmitSendRequestMethod.
  rewrite (EmitSendRequestMethod_prologue g out opName opType maker _ Hm).
  assert (Hlen : NumInputs opType = length pre + S (length post)).
  { unfold NumInputs. rewrite Hin, length_app. reflexivity. }
  rewrite bool_decide_eq_true_2 by lia.
  unfold partial_body. case_bool_decide as Hone.
  - assert (pre = []) as -> by (destruct pre; [done | simpl in Hlen; lia]).
    inversion Hws; subst. rewrite Hin. simpl lookup.
    apply bind_Panicked, bind_Panicked.
    rewrite EmitObjectWriterCall_Buffer, Ht. string_assoc.
  - rewrite Hin. apply bind_Panicked.
    unfold StartWritingList.
    erewrite bind_Done; last first.
    { reflexivity. }
    cbn [fst snd]. apply bind_Panicked.
    rewrite (EmitSendRequestMethod_range_panic _ _ fuel 0 pre t post ws v Hws Ht).
    change (writer_calls_from 0) with writer_calls. string_assoc.
Qed.

(** Writers that exist are all found with one amount of fuel. *)
Lemma writer_names_fuel ts ws :
  Forall2 (λ t w, writer_result h t (Return w)) ts ws →
  ∃ fuel0, ∀ fuel, fuel0 ≤ fuel → writer_names h fuel ts ws.
Proof.
  induction 1 as [|t w ts ws [f Hf] _ [fuel0 IH]].
  - exists 0. intros fuel _. constructor.
  - exists (f `max` fuel0). intros fuel Hle. constructor.
    + apply (WriterMethodForType_mono h f); [done | lia].
    + apply IH. lia.
Qed.

End OnBuffer.

(** ** The argument list *)

Section ArgList.
Variable Signature : ptr → string.

Lemma concat_cons_cons (sep x y : string) (l : list string) :
  String.concat sep (x :: y :: l) = x +:+ sep +:+ String.concat sep (y :: l).
Proof. reflexivity. Qed.

Lemma ArgListMaker_range_step index param paramTypes withNames out :
  ArgListMaker_range Signature (S index) (param :: paramTypes) withNames out =
  ArgListMaker_range Signature (S (S index)) paramTypes withNames
    (out +:+ ", " +:+ parameter Signature withNames (S index) param).
Proof.
  cbn [ArgListMaker_range]. rewrite bool_decide_eq_true_2 by lia.
  unfold parameter. destruct withNames; by rewrite ?append_assoc.
Qed.

Lemma ArgListMaker_range_tail index paramTypes withNames out first :
  ArgListMaker_range Signature (S index) paramTypes withNames (out +:+ first) =
  out +:+ String.concat ", "
            (first :: imap (λ i, parameter Signature withNames (S index + i)) paramTypes).
Proof.
  revert index out first.
  induction paramTypes as [|param paramTypes IH]; intros index out first.
  - reflexivity.
  - assert (E : imap ((λ i, parameter Signature withNames (S index + i)) ∘ S) paramTypes
                = imap (λ i, parameter Signature withNames (S (S index) + i)) paramTypes).
    { apply imap_ext. intros i x _. simpl. by rewrite Nat.add_succ_r. }
    rewrite ArgListMaker_range_step, imap_cons, E, concat_cons_cons.
    rewrite <- (append_assoc (out +:+ first) ", ").
    rewrite IH, Nat.add_0_r. by rewrite !append_assoc.
Qed.

Lemma ArgListMaker_comma_joined paramTypes withNames :
  ArgListMaker Signature paramTypes withNames = comma_joined Signature withNames paramTypes.
Proof.
  unfold ArgListMaker, comma_joined.
  destruct paramTypes as [|param paramTypes]; [reflexivity|].
  cbn [ArgListMaker_range]. rewrite bool_decide_eq_false_2 by lia.
  assert (Hfirst : (if withNames
                    then "" +:+ "arg" +:+ pretty 0 +:+ " " else "") +:+ Signature param
                   = "" +:+ parameter Signature withNames 0 param).
  { unfold parameter. by destruct withNames. }
  rewrite Hfirst, ArgListMaker_range_tail, imap_cons. reflexivity.
Qed.

End ArgList.

(** C9. The default [ArgListMaker] renders, for every sequence of types, the
    parameters [arg0 T0, arg1 T1, ...] (index-named, each followed by the
    signature of its type, comma-joined in order) with names, and the
    comma-joined signatures without; the empty sequence gives the empty string
    both ways. *)
Theorem ArgListMaker_renders (Signature : ptr → string) (paramTypes : list ptr) :
  ArgListMaker Signature paramTypes true =
    String.concat ", "
      (imap (λ index t, ("arg" +:+ pretty index +:+ " ") +:+ Signature t) paramTypes) ∧
  ArgListMaker Signature paramTypes false =
    String.concat ", " (Signature <$> paramTypes) ∧
  ArgListMaker Signature [] true = "" ∧
  ArgListMaker Signature [] false = "".
Proof.
  split_and!; try reflexivity.
  - apply ArgListMaker_comma_joined.
  - rewrite ArgListMaker_comma_joined. unfold comma_joined.
    by rewrite <- imap_const.
Qed.

(** ** The emitted method *)

(** C5. The emission branches on the number of inputs. When every input type
    has a writer, the method is its header, the serialization of the
    arguments and the request construction: nothing is serialized for no
    input, exactly the call of the writer of the input type on [arg0] for one
    input, and for N > 1 inputs an opening bracket, exactly N writer calls,
    the i-th being the call of the writer of the i-th input type on [arg]i,
    and a closing bracket. *)
Theorem EmitSendRequestMethod_argument_count (h : heap) (g : Generator)
    (out : Buffer) (opName : string) (opType : FunctionTypeData)
    (argPrefix : string) (maker : list ptr → bool → string) (ws : list string) :
  G.ArgListMaker g = Some maker →
  Forall2 (λ t w, writer_result h t (Return w)) (InputTypes opType) ws →
  (∃ fuel0, ∀ fuel, fuel0 ≤ fuel →
     EmitSendRequestMethod h fuel opName opType argPrefix (g, out) =
       (Done None,
        (assigned opName opType g,
         out +:+ method_header (ClientName g) opName (maker (InputTypes opType) true)
             +:+ request_body ws
             +:+ method_footer "GET" "http://hello.world/"))) ∧
  (NumInputs opType = 0 → request_body ws = "") ∧
  (NumInputs opType = 1 →
     ∃ w, ws = [w] ∧ writer_result h (default None (InputTypes opType !! 0)) (Return w) ∧
          request_body ws = w +:+ "(body, arg0)") ∧
  (1 < NumInputs opType →
     request_body ws = "[" +:+ concat_all (writer_calls ws) +:+ "]" ∧
     length (writer_calls ws) = NumInputs opType ∧
     ∀ i t, InputTypes opType !! i = Some t →
       ∃ w, writer_result h t (Return w) ∧
            writer_calls ws !! i = Some (w +:+ "(body, " +:+ ("arg" +:+ pretty i) +:+ ")")).
Proof.
  intros Hm Hws. unfold NumInputs.
  pose proof (Forall2_length _ _ _ Hws) as Hlen.
  split_and!.
  - destruct (writer_names_fuel h _ _ Hws) as [fuel0 Hfuel].
    exists fuel0. intros fuel Hle.
    apply (EmitSendRequestMethod_Buffer_ok h g out fuel opName opType argPrefix maker ws);
      [done | by apply Hfuel].
  - intros H0. destruct ws; [done | simpl in Hlen; lia].
  - intros H1. destruct Hws as [|t w ts ws Hw Hws]; [simpl in H1; lia|].
    destruct Hws; [|simpl in H1; lia].
    exists w. by split_and!.
  - intros Hn. split_and!.
    + destruct ws as [|w1 [|w2 ws]]; simpl in Hlen; try lia. reflexivity.
    + unfold writer_calls. rewrite length_imap. lia.
    + intros i t Hi.
      destruct (Forall2_lookup_l _ _ _ _ _ Hws Hi) as (w & Hw & Hr).
      exists w. split; [done|].
      unfold writer_calls. rewrite list_lookup_imap, Hw. reflexivity.
Qed.

Lemma EmitSendRequestMethod_argument_count_witness :
  ∃ fuel0, ∀ fuel, fuel0 ≤ fuel →
    EmitSendRequestMethod sample_heap fuel "Rename" (mkFunction [Some 4; Some 0] [])
      "arg" (sample_generator, "") =
      (Done None,
       (assigned "Rename" (mkFunction [Some 4; Some 0] []) sample_generator,
        "" +:+ method_header "Client" "Rename" "arg0 *Team, arg1 string"
           +:+ "[Write_Team(body, arg0)Write_string(body, arg1)]"
           +:+ method_footer "GET" "http://hello.world/")).
Proof.
  apply (EmitSendRequestMethod_argument_count sample_heap sample_generator ""
           "Rename" (mkFunction [Some 4; Some 0] []) "arg"
           (ArgListMaker sample_Signature) ["Write_Team"; "Write_string"]).
  - reflexivity.
  - repeat constructor; exists 1; reflexivity.
Defined.

(** C3, as stated, fails: the binding table has an entry for [CreateTeam]
    with method POST and endpoint /teams, and the emitted request construction
    is the one with GET and http://hello.world/ all the same; the entry's
    method and endpoint occur nowhere in the output. *)
Lemma EmitSendRequestMethod_ignores_binding :
  let run := EmitSendRequestMethod sample_heap 1 "CreateTeam"
               (mkFunction [Some 4] [Some 4]) "arg" (bound_generator, "") in
  G.Bindings bound_generator !! "CreateTeam" = Some (mkHttpBinding "POST" "/teams" InBody) ∧
  run.1 = Done None ∧
  run.2.2 = method_header "Client" "CreateTeam" "arg0 *Team"
              +:+ "Write_Team(body, arg0)"
              +:+ method_footer "GET" "http://hello.world/" ∧
  is_Some (String.index 0 (request_construction "GET" "http://hello.world/") run.2.2) ∧
  String.index 0 (request_construction "POST" "/teams") run.2.2 = None ∧
  String.index 0 "POST" run.2.2 = None ∧
  String.index 0 "/teams" run.2.2 = None.
Proof. vm_compute. split_and!; try reflexivity. by eexists. Qed.

(** C3, amended. Whatever the binding table holds for the operation, an entry
    or none, the emission does not consult it: when every input type has a
    writer the emission does not abort, the table is left as it was, and the
    request construction of the emitted method is the fixed one, with method
    GET and endpoint http://hello.world/, textually present in the output. *)
Theorem EmitSendRequestMethod_fixed_binding (h : heap) (g : Generator)
    (out : Buffer) (opName : string) (opType : FunctionTypeData)
    (argPrefix : string) (maker : list ptr → bool → string) (ws : list string)
    (binding : option HttpBinding) :
  G.Bindings g !! opName = binding →
  G.ArgListMaker g = Some maker →
  Forall2 (λ t w, writer_result h t (Return w)) (InputTypes opType) ws →
  ∃ fuel0, ∀ fuel, fuel0 ≤ fuel →
    ∃ g' before after,
      EmitSendRequestMethod h fuel opName opType argPrefix (g, out) =
        (Done None,
         (g', before +:+ request_construction "GET" "http://hello.world/" +:+ after)) ∧
      G.OpMethod g' = "GET" ∧
      G.OpEndpoint g' = "http://hello.world/" ∧
      G.Bindings g' !! opName = binding.
Proof.
  intros Hb Hm Hws.
  destruct (writer_names_fuel h _ _ Hws) as [fuel0 Hfuel].
  exists fuel0. intros fuel Hle.
  exists (assigned opName opType g),
    (out +:+ method_header (ClientName g) opName (maker (InputTypes opType) true)
         +:+ request_body ws +:+ nl +:+ tab +:+ "httpreq, err := "),
    method_closing.
  split_and!; [|reflexivity|reflexivity|exact Hb].
  rewrite (EmitSendRequestMethod_Buffer_ok h g out fuel opName opType argPrefix
             maker ws Hm (Hfuel fuel Hle)).
  unfold method_footer. by rewrite !append_assoc.
Qed.

Lemma EmitSendRequestMethod_fixed_binding_witness :
  ∃ fuel0, ∀ fuel, fuel0 ≤ fuel →
    ∃ g' before after,
      EmitSendRequestMethod sample_heap fuel "CreateTeam"
        (mkFunction [Some 4] [Some 4]) "arg" (bound_generator, "") =
        (Done None,
         (g', before +:+ request_construction "GET" "http://hello.world/" +:+ after)) ∧
      G.OpMethod g' = "GET" ∧
      G.OpEndpoint g' = "http://hello.world/" ∧
      G.Bindings g' !! "CreateTeam" = Some (mkHttpBinding "POST" "/teams" InBody).
Proof.
  apply (EmitSendRequestMethod_fixed_binding sample_heap bound_generator ""
           "CreateTeam" (mkFunction [Some 4] [Some 4]) "arg"
           (ArgListMaker sample_Signature) ["Write_Team"]).
  - reflexivity.
  - reflexivity.
  - repeat constructor; exists 1; reflexivity.
Defined.

Example ArgListMaker_two_named :
  ArgListMaker sample_Signature [Some 4; Some 0] true = "arg0 *Team, arg1 string".
Proof. reflexivity. Qed.

Example ArgListMaker_two_unnamed :
  ArgListMaker sample_Signature [Some 4; Some 0] false = "*Team, string".
Proof. reflexivity. Qed.

(** C4, as stated, fails: the operation has a tuple for its input, the
    emission panics, and the output already holds the opening of the method,
    which is never closed. *)
Lemma EmitSendRequestMethod_tuple_not_atomic :
  let run := EmitSendRequestMethod sample_heap 1 "Pair"
               (mkFunction [Some 5] []) "arg" (sample_generator, "") in
  deref sample_heap (Some 5) = Some (TDTuple (mkTuple [Some 0; Some 0])) ∧
  run.1 = Panicked (ErrorsNew "Warning: Tuple types not supported in GO") ∧
  run.2.2 = method_header "Client" "Pair" "arg0 interface{}" ∧
  run.2.2 ≠ "".
Proof. vm_compute. split_and!; [reflexivity..|discriminate]. Qed.

(** C4, amended. When the first input without a writer is a tuple (directly or
    behind aliases and references), the emission panics with the error of
    tuples, and it is not atomic: the output has grown by the header of the
    method and, for more than one input, by the opening bracket and the
    writer calls of the inputs before the tuple; the method is not closed. *)
Theorem EmitSendRequestMethod_tuple_input (h : heap) (g : Generator)
    (out : Buffer) (opName : string) (opType : FunctionTypeData)
    (argPrefix : string) (maker : list ptr → bool → string)
    (pre post : list ptr) (t t' : ptr) (n : nat) (d : TupleTypeData)
    (ws : list string) :
  G.ArgListMaker g = Some maker →
  InputTypes opType = pre ++ t :: post →
  Forall2 (λ t w, writer_result h t (Return w)) pre ws →
  chain_at h n t = Some t' → deref h t' = Some (TDTuple d) →
  ∃ fuel0, ∀ fuel, fuel0 ≤ fuel →
    EmitSendRequestMethod h fuel opName opType argPrefix (g, out) =
      (Panicked (ErrorsNew "Warning: Tuple types not supported in GO"),
       (assigned opName opType g,
        out +:+ method_header (ClientName g) opName (maker (InputTypes opType) true)
            +:+ (if bool_decide (NumInputs opType = 1) then ""
                 else "[" +:+ concat_all (writer_calls ws)))).
Proof.
  intros Hm Hin Hws Hc Hd.
  destruct (writer_names_fuel h _ _ Hws) as [fuel0 Hfuel].
  exists (fuel0 `max` (n + 1)). intros fuel Hle.
  apply (EmitSendRequestMethod_Buffer_panic h g out fuel opName opType argPrefix
           maker pre t post ws); [done | done | apply Hfuel; lia |].
  apply (WriterMethodForType_mono h (n + 1)); [|lia].
  rewrite (WriterMethodForType_chain h n t t' 1 Hc). simpl. by rewrite Hd.
Qed.

Lemma EmitSendRequestMethod_tuple_input_witness :
  ∃ fuel0, ∀ fuel, fuel0 ≤ fuel →
    EmitSendRequestMethod sample_heap fuel "Tag"
      (mkFunction [Some 4; Some 5; Some 0] []) "arg" (sample_generator, "") =
      (Panicked (ErrorsNew "Warning: Tuple types not supported in GO"),
       (assigned "Tag" (mkFunction [Some 4; Some 5; Some 0] []) sample_generator,
        "" +:+ method_header "Client" "Tag" "arg0 *Team, arg1 interface{}, arg2 string"
           +:+ "[Write_Team(body, arg0)")).
Proof.
  apply (EmitSendRequestMethod_tuple_input sample_heap sample_generator ""
           "Tag" (mkFunction [Some 4; Some 5; Some 0] []) "arg"
           (ArgListMaker sample_Signature) [Some 4] [Some 0] (Some 5) (Some 5) 0
           (mkTuple [Some 0; Some 0]) ["Write_Team"]).
  - reflexivity.
  - reflexivity.
  - repeat constructor; exists 1; reflexivity.
  - reflexivity.
  - reflexivity.
Defined.

(** C10. Whenever [EmitSendRequestMethod] returns, on any writer, the error it
    returns is nil: an argument type without writer and a failure of a
    template are panics, never a returned error. *)
Theorem EmitSendRequestMethod_returns_nil {W : Type} `{Writer W} (h : heap)
    (fuel : nat) (opName : string) (opType : FunctionTypeData)
    (argPrefix : string) (s s' : Generator * W) (err : option error) :
  EmitSendRequestMethod h fuel opName opType argPrefix s = (Done err, s') →
  err = None.
Proof.
  unfold EmitSendRequestMethod. intros Hrun.
  repeat (apply bind_Done_inv in Hrun; destruct Hrun as (? & ? & _ & Hrun)).
  by injection Hrun as <- _.
Qed.

Lemma EmitSendRequestMethod_returns_nil_witness :
  ∃ err s',
    EmitSendRequestMethod sample_heap 1 "SayHello" SayHello "arg"
      (sample_generator, "") = (Done err, s') ∧
    err = None.
Proof.
  eexists _, _. split; [vm_compute; reflexivity|].
  apply (EmitSendRequestMethod_returns_nil sample_heap 1 "SayHello" SayHello "arg"
           (sample_generator, "")
           (EmitSendRequestMethod sample_heap 1 "SayHello" SayHello "arg"
              (sample_generator, "")).2).
  vm_compute. reflexivity.
Defined.

(** On a writer whose writes fail, the failure of the first template is a
    panic; nothing is returned. *)
Example EmitSendRequestMethod_closed_writer :
  (EmitSendRequestMethod sample_heap 1 "SayHello" SayHello "arg"
     (sample_generator, closed)).1
  = Panicked (TemplateError "write on closed writer").
Proof. reflexivity. Qed.

(** ** The client class *)

Section ClientClass.
Context {W : Type} `{Writer W}.
Variable h : heap.
Variable ParseFiles : string → error + Template.

Lemma EmitClientClass_nil (g : Generator) (w : W) pkgName serviceName :
  deref h (GetType (G.TypeSystem g) pkgName serviceName) = None →
  EmitClientClass h ParseFiles pkgName serviceName (g, w) =
    (Panicked NilDereference, (G.set_ServiceName serviceName g, w)).
Proof.
  intros Hd. unfold EmitClientClass.
  run_assign. run_self.
  apply bind_Panicked. cbn [fst snd].
  change (G.TypeSystem (G.set_ServiceName serviceName g)) with (G.TypeSystem g).
  by rewrite Hd.
Qed.

Lemma EmitClientClass_not_record (g : Generator) (w : W) pkgName serviceName td :
  deref h (GetType (G.TypeSystem g) pkgName serviceName) = Some td →
  (∀ d, td ≠ TDRecord d) →
  EmitClientClass h ParseFiles pkgName serviceName (g, w) =
    (Panicked InterfaceConversion, (G.set_ServiceName serviceName g, w)).
Proof.
  intros Hd Hnot. unfold EmitClientClass.
  run_assign. run_self.
  apply bind_Panicked. cbn [fst snd].
  change (G.TypeSystem (G.set_ServiceName serviceName g)) with (G.TypeSystem g).
  rewrite Hd. destruct td; try reflexivity. by destruct (Hnot d).
Qed.

Lemma EmitClientClass_record (g : Generator) (w w' : W) pkgName serviceName d
    tmpl :
  deref h (GetType (G.TypeSystem g) pkgName serviceName) = Some (TDRecord d) →
  ParseFiles (G.TemplatesDir g +:+ "client.gen") = inr tmpl →
  Execute tmpl w (G.set_ServiceType (Some d) (G.set_ServiceName serviceName g))
    = (w', None) →
  EmitClientClass h ParseFiles pkgName serviceName (g, w) =
    (Done None, (G.set_ServiceType (Some d) (G.set_ServiceName serviceName g), w')).
Proof.
  intros Hd Hp Hx. unfold EmitClientClass.
  run_assign. run_self.
  cbn [fst snd].
  change (G.TypeSystem (G.set_ServiceName serviceName g)) with (G.TypeSystem g).
  change (G.TemplatesDir (G.set_ServiceName serviceName g)) with (G.TemplatesDir g).
  rewrite Hd, Hp, bind_ret.
  run_assign.
  unfold execute, mbind, M_bind. cbn [fst snd]. by rewrite Hx.
Qed.

Lemma EmitClientClass_nil_error (g : Generator) (w : W) pkgName serviceName
    err s' :
  EmitClientClass h ParseFiles pkgName serviceName (g, w) = (Done err, s') →
  err = None.
Proof.
  unfold EmitClientClass. intros Hrun.
  do 4 (apply bind_Done_inv in Hrun; destruct Hrun as (? & ? & _ & Hrun)).
  destruct (ParseFiles _) as [e|tmpl]; [discriminate|].
  apply bind_Done_inv in Hrun. destruct Hrun as ([e|] & ? & _ & Hrun).
  - discriminate.
  - by injection Hrun as <- _.
Qed.

End ClientClass.

(** C6, as stated, fails: [Service] is registered and resolves, through an
    alias, to the record [Greeter], yet the class is not rendered: the type
    assertion panics.  Neither is an error returned for a name that is not
    registered or for a registered type that is no record: both panic. *)
Lemma EmitClientClass_panics :
  let emit name := EmitClientClass sample_heap sample_ParseFiles "pkg" name
                     (sample_generator, "") in
  sample_registry !! ("pkg", "Service") = Some 3 ∧
  chain_at sample_heap 1 (Some 3) = Some (Some 2) ∧
  deref sample_heap (Some 2) = Some (TDRecord Greeter) ∧
  (emit "Service").1 = Panicked InterfaceConversion ∧
  (emit "Service").2.2 = "" ∧
  sample_registry !! ("pkg", "Missing") = None ∧
  (emit "Missing").1 = Panicked NilDereference ∧
  sample_registry !! ("pkg", "string") = Some 0 ∧
  (emit "string").1 = Panicked InterfaceConversion.
Proof. vm_compute. split_and!; reflexivity. Qed.

(** C6, amended. [EmitClientClass] never returns an error that is not nil.
    For a name that is not registered ([GetType] yields nil) it panics on the
    nil dereference; when the [TypeData] of the registered type is not itself a
    record, an alias or a reference to a record included as nothing is
    resolved, it panics on the type assertion; when it is a record and
    [client.gen] parses and executes, the service name and type are assigned,
    the class is rendered and nil is returned. *)
Theorem EmitClientClass_outcomes {W : Type} `{Writer W} (h : heap)
    (ParseFiles : string → error + Template) (g : Generator) (w : W)
    (pkgName serviceName : string) :
  let t := GetType (G.TypeSystem g) pkgName serviceName in
  let named := G.set_ServiceName serviceName g in
  let emit := EmitClientClass h ParseFiles pkgName serviceName (g, w) in
  (∀ reg, G.TypeSystem g = RegistryTypeSystem reg →
     reg !! (pkgName, serviceName) = None →
     emit = (Panicked NilDereference, (named, w))) ∧
  (deref h t = None → emit = (Panicked NilDereference, (named, w))) ∧
  (∀ td, deref h t = Some td → (∀ d, td ≠ TDRecord d) →
     emit = (Panicked InterfaceConversion, (named, w))) ∧
  (∀ d tmpl w',
     deref h t = Some (TDRecord d) →
     ParseFiles (G.TemplatesDir g +:+ "client.gen") = inr tmpl →
     Execute tmpl w (G.set_ServiceType (Some d) named) = (w', None) →
     emit = (Done None, (G.set_ServiceType (Some d) named, w'))) ∧
  (∀ err s', emit = (Done err, s') → err = None).
Proof.
  intros t named emit. subst t named emit. split_and!.
  - intros reg Hts Hreg. apply EmitClientClass_nil.
    rewrite Hts. simpl. by rewrite Hreg.
  - intros Hd. by apply EmitClientClass_nil.
  - intros td Hd Hnot. by apply (EmitClientClass_not_record h ParseFiles g w _ _ td).
  - intros d tmpl w' Hd Hp Hx. by apply (EmitClientClass_record h ParseFiles g w w' _ _ d tmpl).
  - intros err s'. apply EmitClientClass_nil_error.
Qed.

Lemma EmitClientClass_outcomes_witness :
  EmitClientClass sample_heap sample_ParseFiles "pkg" "Missing" (sample_generator, "")
    = (Panicked NilDereference, (G.set_ServiceName "Missing" sample_generator, "")) ∧
  EmitClientClass sample_heap sample_ParseFiles "pkg" "Service" (sample_generator, "")
    = (Panicked InterfaceConversion, (G.set_ServiceName "Service" sample_generator, "")) ∧
  EmitClientClass sample_heap sample_ParseFiles "pkg" "Greeter" (sample_generator, "")
    = (Done None,
       (G.set_ServiceType (Some Greeter) (G.set_ServiceName "Greeter" sample_generator),
        "package restclient" +:+ nl +:+ nl +:+
        "type GreeterClient struct {" +:+ nl +:+ "}" +:+ nl)).
Proof.
  split_and!.
  - apply (proj1 (EmitClientClass_outcomes sample_heap sample_ParseFiles
                    sample_generator "" "pkg" "Missing") sample_registry);
      reflexivity.
  - apply (proj1 (proj2 (proj2 (EmitClientClass_outcomes sample_heap sample_ParseFiles
                    sample_generator "" "pkg" "Service")))
             (TDAlias (mkAlias "Service" (Some 2))));
      [reflexivity | discriminate].
  - apply (proj1 (proj2 (proj2 (proj2 (EmitClientClass_outcomes sample_heap
                    sample_ParseFiles sample_generator "" "pkg" "Greeter"))))
             Greeter sample_client_gen);
      reflexivity.
Defined.

(** ** The name of an emitted method *)

Lemma appends_ret {A} (a : A) : appends (mret a).
Proof. intros g out. exists "". simpl. by rewrite append_nil_r. Qed.

Lemma appends_panic {A} v : appends (@panic Buffer A v).
Proof. intros g out. exists "". simpl. by rewrite append_nil_r. Qed.

Lemma appends_call {A} (r : option (Result A)) : appends (call r).
Proof.
  destruct r as [[a|v]|]; [apply appends_ret | apply appends_panic |].
  intros g out. exists "". simpl. by rewrite append_nil_r.
Qed.

Lemma appends_write p : appends (write p).
Proof. intros g out. exists p. reflexivity. Qed.

Lemma appends_bind {A B} (m : M Buffer A) (f : A → M Buffer B) :
  appends m → (∀ a, appends (f a)) → appends (m ≫= f).
Proof.
  intros Hm Hf g out. destruct (Hm g out) as [x Hx].
  unfold mbind, M_bind. destruct (m (g, out)) as [[a| | ] [g1 out1]]; simpl in Hx.
  - destruct (Hf a g1 out1) as [y Hy]. exists (x +:+ y).
    by rewrite Hy, Hx, append_assoc.
  - by exists x.
  - by exists x.
Qed.

Lemma Execute_Buffer_appends (templ : Template) (out : Buffer) (g : Generator) :
  ∃ x, (Execute templ out g).1 = out +:+ x.
Proof.
  revert out. induction templ as [|node templ IH]; intros out.
  - exists "". simpl. by rewrite append_nil_r.
  - cbn [Execute].
    destruct (match node with TextNode s => inr s | ActionNode eval => eval g end)
      as [e|s].
    + exists "". simpl. by rewrite append_nil_r.
    + unfold Write, Buffer_Writer. cbv beta iota.
      destruct (IH (out +:+ s)) as [x Hx].
      exists (s +:+ x). etrans; [exact Hx | apply append_assoc].
Qed.

Lemma appends_execute templ : appends (execute templ).
Proof.
  intros g out. unfold execute. cbn [fst snd].
  destruct (Execute_Buffer_appends templ out g) as [x Hx].
  exists x. by destruct (Execute templ out g).
Qed.

Lemma appends_EmitObjectWriterCall h fuel key argName argType :
  appends (EmitObjectWriterCall h fuel key argName argType).
Proof.
  apply appends_bind; [apply appends_call|]. intros w.
  apply appends_bind; [apply appends_write|]. intros _. apply appends_ret.
Qed.

Lemma appends_EmitSendRequestMethod_range h fuel index params :
  appends (EmitSendRequestMethod_range h fuel index params).
Proof.
  revert index. induction params as [|param params IH]; intros index.
  - apply appends_ret.
  - apply appends_bind; [apply appends_EmitObjectWriterCall | intros _; apply IH].
Qed.

Lemma appends_EndWritingMethod opName opType :
  appends (EndWritingMethod opName opType).
Proof.
  apply appends_bind; [apply appends_execute|].
  intros [e|]; [apply appends_panic | apply appends_ret].
Qed.

(** Whatever becomes of the parameters, the opening has been written. *)
Lemma StartWritingMethod_opening (g : Generator) (out : Buffer) opName opType
    argPrefix :
  ∃ x, (StartWritingMethod opName opType argPrefix (g, out)).2.2 =
         out +:+ method_opening (ClientName g) (G.OpName g) +:+ x.
Proof.
  unfold StartWritingMethod, execute, StartWritingMethod_template, mbind, M_bind.
  cbn [fst snd Execute]. unfold Write, Buffer_Writer. unfold method_opening.
  destruct (G.OpType g) as [opType'|], (G.ArgListMaker g) as [maker|];
    cbn [fst snd Execute]; unfold mret, M_ret, panic;
    [ eexists; cbn [fst snd]; rewrite !append_assoc; reflexivity
    | exists ""; string_assoc .. ].
Qed.

Lemma EmitSendRequestMethod_opening (h : heap) (g : Generator) (out : Buffer)
    fuel opName opType argPrefix :
  ∃ x, (EmitSendRequestMethod h fuel opName opType argPrefix (g, out)).2.2 =
         out +:+ method_opening (ClientName g) opName +:+ x.
Proof.
  unfold EmitSendRequestMethod. do 4 run_assign.
  change (G.set_OpEndpoint "http://hello.world/"
            (G.set_OpMethod "GET" (G.set_OpType (Some opType) (G.set_OpName opName g))))
    with (assigned opName opType g).
  destruct (StartWritingMethod_opening (assigned opName opType g) out opName opType "arg")
    as [x Hx].
  change (ClientName (assigned opName opType g)) with (ClientName g) in Hx.
  change (G.OpName (assigned opName opType g)) with opName in Hx.
  unfold mbind at 1, M_bind at 1.
  destruct (StartWritingMethod opName opType "arg" (assigned opName opType g, out))
    as [[a| | ] [g1 out1]]; simpl in Hx; subst out1.
  - match goal with |- context [ ?k (g1, ?o) ] =>
      assert (Hk : appends k); [|destruct (Hk g1 o) as [y Hy]]
    end.
    { apply appends_bind.
      - repeat case_bool_decide.
        + destruct (InputTypes opType !! 0).
          * apply appends_bind; [apply appends_EmitObjectWriterCall|].
            intros _. apply appends_ret.
          * apply appends_panic.
        + apply appends_bind.
          { apply appends_bind; [apply appends_write | intros _; apply appends_ret]. }
          intros _. apply appends_bind.
          { apply appends_EmitSendRequestMethod_range. }
          intros _. apply appends_bind; [apply appends_write | intros _; apply appends_ret].
        + apply appends_ret.
      - intros _. apply appends_bind; [apply appends_EndWritingMethod|].
        intros _. apply appends_ret. }
    exists (x +:+ y). rewrite Hy. string_assoc.
  - by exists x.
  - by exists x.
Qed.

(** C7. The round trip of the design document: with [Greeter] registered as
    the record whose field [SayHello] is a function from a string to a string,
    [EmitClientClass] followed by the emission of [SayHello] yields a method
    named [SendSayHelloRequest] with the one parameter [arg0] of the string
    type and with the one call [Write_string(body, arg0)] as the
    serialization; and, in general, the text an emission appends starts with
    the opening of a method named [Send] + operation name + [Request]. *)
Theorem Greeter_round_trip (Signature : ptr → string)
    (ParseFiles : string → error + Template) (templatesDir : string)
    (tmpl : Template) (stdout stdout' out : Buffer) :
  let g0 := NewGenerator Signature None (RegistryTypeSystem sample_registry)
              templatesDir in
  let g1 := G.set_ServiceType (Some Greeter) (G.set_ServiceName "Greeter" g0) in
  ParseFiles (templatesDir +:+ "client.gen") = inr tmpl →
  Execute tmpl stdout g1 = (stdout', None) →
  EmitClientClass sample_heap ParseFiles "pkg" "Greeter" (g0, stdout)
    = (Done None, (g1, stdout')) ∧
  (∀ fuel, 0 < fuel →
     EmitSendRequestMethod sample_heap fuel "SayHello" SayHello "arg" (g1, out) =
       (Done None,
        (assigned "SayHello" SayHello g1,
         out +:+ nl +:+
         "func (svc *GreeterClient) SendSayHelloRequest(" +:+
           ("arg0 " +:+ Signature (Some 0)) +:+
           ") (resp *http.Response, error) {" +:+ nl +:+
         tab +:+ "body := bytes.NewBuffer(nil)" +:+ nl +:+
         tab +:+ "Write_string(body, arg0)" +:+
         method_footer "GET" "http://hello.world/"))) ∧
  (∀ h g out fuel opName opType argPrefix,
     ∃ x, (EmitSendRequestMethod h fuel opName opType argPrefix (g, out)).2.2 =
            out +:+ nl +:+ "func (svc *" +:+ ClientName g +:+ ") Send" +:+ opName +:+
            "Request(" +:+ x).
Proof.
  intros g0 g1 Hp Hx. split_and!.
  - by apply (EmitClientClass_record sample_heap ParseFiles g0 stdout stdout'
                "pkg" "Greeter" Greeter tmpl).
  - intros fuel Hfuel.
    rewrite (EmitSendRequestMethod_Buffer_ok sample_heap g1 out fuel "SayHello"
               SayHello "arg" (ArgListMaker Signature) ["Write_string"] eq_refl).
    + unfold method_header. rewrite !append_assoc. reflexivity.
    + repeat constructor. destruct fuel; [lia | reflexivity].
  - intros h g out' fuel opName opType argPrefix.
    destruct (EmitSendRequestMethod_opening h g out' fuel opName opType argPrefix)
      as [x Hx'].
    exists x. etrans; [exact Hx'|]. unfold method_opening. by rewrite !append_assoc.
Qed.

Lemma Greeter_round_trip_witness :
  let g1 := G.set_ServiceType (Some Greeter)
              (G.set_ServiceName "Greeter" sample_generator) in
  EmitClientClass sample_heap sample_ParseFiles "pkg" "Greeter" (sample_generator, "")
    = (Done None,
       (g1, "package restclient" +:+ nl +:+ nl +:+
            "type GreeterClient struct {" +:+ nl +:+ "}" +:+ nl)) ∧
  EmitSendRequestMethod sample_heap 1 "SayHello" SayHello "arg" (g1, "") =
    (Done None,
     (assigned "SayHello" SayHello g1,
      nl +:+
      "func (svc *GreeterClient) SendSayHelloRequest(arg0 string)" +:+
        " (resp *http.Response, error) {" +:+ nl +:+
      tab +:+ "body := bytes.NewBuffer(nil)" +:+ nl +:+
      tab +:+ "Write_string(body, arg0)" +:+
      method_footer "GET" "http://hello.world/")).
Proof.
  intros g1.
  destruct (Greeter_round_trip sample_Signature sample_ParseFiles "templates/"
              sample_client_gen "" ("package restclient" +:+ nl +:+ nl +:+
                "type GreeterClient struct {" +:+ nl +:+ "}" +:+ nl) ""
              eq_refl eq_refl) as (Hclass & Hmethod & _).
  split; [exact Hclass | exact (Hmethod 1 (le_n 1))].
Defined.

(** * Further properties *)

(** ** The writer dispatch along chains and across heaps *)

(** X1. The writer of a type is the writer of every node further along its
    alias and reference chain: after [n] wrappers the call has the same
    results, with [n] units of fuel less. *)
Theorem WriterMethodForType_along_chain (h : heap) (n : nat) (t t' : ptr) :
  chain_at h n t = Some t' →
  (∀ fuel, WriterMethodForType (n + fuel) h t = WriterMethodForType fuel h t') ∧
  (∀ r, writer_result h t r ↔ writer_result h t' r).
Proof.
  intros Hc. split.
  - intros fuel. by apply WriterMethodForType_chain.
  - intros r. split; intros [fuel Hr].
    + destruct (decide (fuel ≤ n)) as [Hle|Hgt].
      * by rewrite (WriterMethodForType_short h n t t' fuel Hc Hle) in Hr.
      * exists (fuel - n).
        rewrite <- (WriterMethodForType_chain h n t t' (fuel - n) Hc).
        by replace (n + (fuel - n)) with fuel by lia.
    + exists (n + fuel). by rewrite (WriterMethodForType_chain h n t t' fuel Hc).
Qed.

Lemma WriterMethodForType_along_chain_witness :
  (∀ fuel, WriterMethodForType (2 + fuel) string_alias_heap (Some 2)
           = WriterMethodForType fuel string_alias_heap (Some 0)) ∧
  (∀ r, writer_result string_alias_heap (Some 2) r ↔
        writer_result string_alias_heap (Some 0) r).
Proof.
  apply (WriterMethodForType_along_chain string_alias_heap 2 (Some 2) (Some 0)).
  reflexivity.
Defined.

Lemma agree_on_chain_wrapped h h' t t' :
  agree_on_chain h h' t → wrapped h t = Some t' → agree_on_chain h h' t'.
Proof.
  intros Ha Hw n x Hc. apply (Ha (S n)). simpl. by rewrite Hw.
Qed.

(** X2. The call looks at the nodes of the chain only: on two heaps that agree
    on the chain of [t] it behaves the same, with every amount of fuel. *)
Theorem WriterMethodForType_local (h h' : heap) (t : ptr) :
  agree_on_chain h h' t →
  ∀ fuel, WriterMethodForType fuel h t = WriterMethodForType fuel h' t.
Proof.
  intros Ha fuel. revert t Ha.
  induction fuel as [|fuel IH]; intros t Ha; [reflexivity|].
  pose proof (Ha 0 t eq_refl) as H0.
  destruct (wrapped h t) as [t1|] eqn:Hw.
  - assert (Hw' : wrapped h' t = Some t1) by (unfold wrapped in *; by rewrite <- H0).
    rewrite (WriterMethodForType_wrapped h t t1 fuel Hw).
    rewrite (WriterMethodForType_wrapped h' t t1 fuel Hw').
    apply IH. by apply (agree_on_chain_wrapped h h' t).
  - simpl. rewrite <- H0.
    unfold wrapped in Hw. by destruct (deref h t) as [[]|].
Qed.

Lemma WriterMethodForType_local_witness :
  agree_on_chain string_alias_heap (delete 2 string_alias_heap) (Some 1) ∧
  ∀ fuel, WriterMethodForType fuel string_alias_heap (Some 1)
          = WriterMethodForType fuel (delete 2 string_alias_heap) (Some 1).
Proof.
  assert (Ha : agree_on_chain string_alias_heap (delete 2 string_alias_heap) (Some 1)).
  { intros [|[|n]] x; simpl; intros [= <-]; reflexivity. }
  split; [exact Ha|].
  exact (WriterMethodForType_local string_alias_heap (delete 2 string_alias_heap)
           (Some 1) Ha).
Defined.

(** X3. Registering more types changes no writer: a result other than the
    panic of a nil dereference stays the result on every larger heap. *)
Theorem WriterMethodForType_heap_extension (h h' : heap) (t : ptr) (fuel : nat)
    (r : Result string) :
  h ⊆ h' → r ≠ Panic NilDereference →
  WriterMethodForType fuel h t = Some r →
  WriterMethodForType fuel h' t = Some r.
Proof.
  intros Hsub Hr. revert t.
  induction fuel as [|fuel IH]; intros t Hrun; [discriminate|].
  simpl in Hrun |- *.
  destruct (deref h t) as [td|] eqn:Hd.
  - assert (Hd' : deref h' t = Some td).
    { destruct t as [l|]; [|discriminate]. simpl in *.
      by apply (lookup_weaken h h' l td). }
    rewrite Hd'. destruct td; try done; by apply IH.
  - congruence.
Qed.

Lemma WriterMethodForType_heap_extension_witness :
  WriterMethodForType 2 sample_heap (Some 3) = Some (Return "Write_Greeter") ∧
  WriterMethodForType 2 (<[ 6 := TDOther ]> sample_heap) (Some 3)
    = Some (Return "Write_Greeter").
Proof.
  split; [reflexivity|].
  apply (WriterMethodForType_heap_extension sample_heap
           (<[ 6 := TDOther ]> sample_heap) (Some 3) 2 (Return "Write_Greeter")).
  - by apply insert_subseteq.
  - discriminate.
  - reflexivity.
Defined.

(** X4. The results the call can have: a name is [UnknownWriter] or starts
    with [Write_], and a panic is the one of functions, the one of tuples or
    a nil dereference. *)
Theorem WriterMethodForType_results (h : heap) (t : ptr) (r : Result string) :
  writer_result h t r →
  match r with
  | Return w => w = "UnknownWriter" ∨ ∃ name, w = "Write_" +:+ name
  | Panic v => v = ErrorsNew "Function types not supported in GO" ∨
               v = ErrorsNew "Warning: Tuple types not supported in GO" ∨
               v = NilDereference
  end.
Proof.
  intros [fuel Hr]. revert t Hr.
  induction fuel as [|fuel IH]; intros t Hr; [discriminate|].
  simpl in Hr.
  destruct (deref h t) as [[name|d|d|d|d|d|d|d| ]|];
    try (by apply (IH _ Hr)); injection Hr as <-; eauto.
Qed.

Lemma WriterMethodForType_results_witness :
  "Write_Team" = "UnknownWriter" ∨ ∃ name, "Write_Team" = "Write_" +:+ name.
Proof.
  apply (WriterMethodForType_results sample_heap (Some 4) (Return "Write_Team")).
  exists 1. reflexivity.
Defined.

(** ** The emission on any writer *)

Section OnWriter.
Context {W : Type} `{Writer W}.
Variable h : heap.

Lemma StartWritingMethod_run (g : Generator) (w w' : W) opName opType argPrefix
    (err : option error) :
  Execute StartWritingMethod_template w g = (w', err) →
  StartWritingMethod opName opType argPrefix (g, w) =
    match err with
    | None => (Done None, (g, w'))
    | Some e => (Panicked (TemplateError e), (g, w'))
    end.
Proof.
  intros Hx. unfold StartWritingMethod, execute, mbind, M_bind. cbn [fst snd].
  rewrite Hx. by destruct err.
Qed.

Lemma EndWritingMethod_run (g : Generator) (w w' : W) opName opType
    (err : option error) :
  Execute EndWritingMethod_template w g = (w', err) →
  EndWritingMethod opName opType (g, w) =
    match err with
    | None => (Done None, (g, w'))
    | Some e => (Panicked (TemplateError e), (g, w'))
    end.
Proof.
  intros Hx. unfold EndWritingMethod, execute, mbind, M_bind. cbn [fst snd].
  rewrite Hx. by destruct err.
Qed.

Lemma EmitObjectWriterCall_run (g : Generator) (w : W) fuel key argName argType :
  EmitObjectWriterCall h fuel key argName argType (g, w) =
    match WriterMethodForType fuel h argType with
    | Some (Return name) => (Done None, (g, (Write w (writer_call name argName)).1))
    | Some (Panic v) => (Panicked v, (g, w))
    | None => (OutOfFuel, (g, w))
    end.
Proof.
  unfold EmitObjectWriterCall, mbind, M_bind, call, write.
  destruct (WriterMethodForType fuel h argType) as [[name|v]|]; try reflexivity.
  cbn [mret M_ret fst snd]. unfold writer_call.
  by destruct (Write w _).
Qed.

Lemma write_all_app (w : W) ps1 ps2 :
  write_all w (ps1 ++ ps2) = write_all (write_all w ps1) ps2.
Proof. unfold write_all. by rewrite foldl_app. Qed.

Lemma EmitSendRequestMethod_range_run (g : Generator) (w : W) fuel index
    pre rest ws :
  writer_names h fuel pre ws →
  EmitSendRequestMethod_range h fuel index (pre ++ rest) (g, w) =
  EmitSendRequestMethod_range h fuel (index + length pre) rest
    (g, write_all w (writer_calls_from index ws)).
Proof.
  intros Hws. revert index w.
  induction Hws as [|t name pre ws Hname _ IH]; intros index w.
  - simpl. by rewrite Nat.add_0_r.
  - simpl app. cbn [EmitSendRequestMethod_range].
    rewrite (bind_Done _ _ _ None
               (g, (Write w (writer_call name ("arg" +:+ pretty index))).1)).
    2:{ rewrite EmitObjectWriterCall_run. by rewrite Hname. }
    rewrite IH, writer_calls_from_cons. simpl length.
    by rewrite Nat.add_succ_r.
Qed.

Lemma write_Done (g : Generator) (w : W) p :
  ∃ err, write p (g, w) = (Done err, (g, (Write w p).1)).
Proof. unfold write. cbn [fst snd]. destruct (Write w p) as [w' err]. by exists err. Qed.

Lemma StartWritingList_run (g : Generator) (w : W) :
  StartWritingList (g, w) = (Done (), (g, (Write w "[").1)).
Proof.
  unfold StartWritingList. destruct (write_Done g w "[") as [err Hw].
  by rewrite (bind_Done _ _ _ _ _ Hw).
Qed.

Lemma EndWritingList_run (g : Generator) (w : W) :
  EndWritingList (g, w) = (Done (), (g, (Write w "]").1)).
Proof.
  unfold EndWritingList. destruct (write_Done g w "]") as [err Hw].
  by rewrite (bind_Done _ _ _ _ _ Hw).
Qed.

(** The part of [EmitSendRequestMethod] between the two templates, when
    every input has a writer. *)
Lemma EmitSendRequestMethod_body_run (g : Generator) (w : W) fuel opType ws
    (k : M W (option error)) :
  writer_names h fuel (InputTypes opType) ws →
  ((if bool_decide (0 < NumInputs opType) then
      if bool_decide (NumInputs opType = 1) then
        match InputTypes opType !! 0 with
        | Some argType => EmitObjectWriterCall h fuel None "arg0" argType ;; mret ()
        | None => panic IndexOutOfRange
        end
      else
        StartWritingList ;;
        EmitSendRequestMethod_range h fuel 0 (InputTypes opType) ;;
        EndWritingList
    else mret ()) ;; k) (g, w) =
  k (g, write_all w (body_writes ws)).
Proof.
  intros Hws. unfold NumInputs.
  destruct Hws as [|t name ts ws Hname Hws].
  - simpl length. rewrite bool_decide_eq_false_2 by lia. by rewrite bind_ret.
  - destruct Hws as [|t2 name2 ts ws Hname2 Hws].
    + simpl length. rewrite !bool_decide_eq_true_2 by lia. simpl lookup.
      erewrite bind_Done; [reflexivity|].
      erewrite bind_Done; [reflexivity|].
      rewrite EmitObjectWriterCall_run. by rewrite Hname.
    + simpl length. rewrite bool_decide_eq_true_2 by lia.
      rewrite bool_decide_eq_false_2 by lia.
      erewrite bind_Done; [reflexivity|].
      rewrite (bind_Done _ _ _ _ _ (StartWritingList_run g w)).
      pose proof (EmitSendRequestMethod_range_run g (Write w "[").1 fuel 0
                    (t :: t2 :: ts) [] (name :: name2 :: ws)) as Hrange.
      rewrite app_nil_r in Hrange.
      erewrite bind_Done; last first.
      { rewrite Hrange by (by repeat constructor). reflexivity. }
      rewrite EndWritingList_run.
      unfold body_writes. change (writer_calls_from 0) with writer_calls.
      rewrite (write_all_app _ ("[" :: writer_calls (name :: name2 :: ws)) ["]"]).
      reflexivity.
Qed.

Lemma EmitSendRequestMethod_assigns (g : Generator) (w : W) opName opType
    (k : M W (option error)) :
  (assign (G.set_OpName opName) ;;
   assign (G.set_OpType (Some opType)) ;;
   assign (G.set_OpMethod "GET") ;;
   assign (G.set_OpEndpoint "http://hello.world/") ;;
   k) (g, w) =
  k (assigned opName opType g, w).
Proof. by do 4 run_assign. Qed.

(** The header template fails: the emission panics with its error. *)
Lemma EmitSendRequestMethod_header_failure (g : Generator) (w w' : W) fuel
    opName opType argPrefix e :
  Execute StartWritingMethod_template w (assigned opName opType g) = (w', Some e) →
  EmitSendRequestMethod h fuel opName opType argPrefix (g, w) =
    (Panicked (TemplateError e), (assigned opName opType g, w')).
Proof.
  intros Hx. unfold EmitSendRequestMethod. rewrite EmitSendRequestMethod_assigns.
  apply bind_Panicked.
  by rewrite (StartWritingMethod_run _ w w' opName opType "arg" (Some e) Hx).
Qed.

(** The header template executes and every input has a writer: the outcome
    is decided by the footer template, whatever the writes in between
    report. *)
Lemma EmitSendRequestMethod_on_writer (g : Generator) (w w1 w3 : W) fuel
    opName opType argPrefix ws (err : option error) :
  Execute StartWritingMethod_template w (assigned opName opType g) = (w1, None) →
  writer_names h fuel (InputTypes opType) ws →
  Execute EndWritingMethod_template (write_all w1 (body_writes ws))
    (assigned opName opType g) = (w3, err) →
  EmitSendRequestMethod h fuel opName opType argPrefix (g, w) =
    match err with
    | None => (Done None, (assigned opName opType g, w3))
    | Some e => (Panicked (TemplateError e), (assigned opName opType g, w3))
    end.
Proof.
  intros Hh Hws Hf. unfold EmitSendRequestMethod.
  rewrite EmitSendRequestMethod_assigns.
  rewrite (bind_Done _ _ _ _ _
             (StartWritingMethod_run _ w w1 opName opType "arg" None Hh)).
  rewrite (EmitSendRequestMethod_body_run _ w1 fuel opType ws _ Hws).
  pose proof (EndWritingMethod_run (assigned opName opType g) _ w3 opName opType
                err Hf) as Hend.
  destruct err as [e|].
  - by apply bind_Panicked.
  - by rewrite (bind_Done _ _ _ _ _ Hend).
Qed.

(** *** What the methods do to the generator *)

Lemma keeps_ret {A} (a : A) : keeps (mret a : M W A).
Proof. by intros g w. Qed.

Lemma keeps_panic {A} v : keeps (panic v : M W A).
Proof. by intros g w. Qed.

Lemma keeps_call {A} (r : option (Result A)) : keeps (call r : M W A).
Proof. by destruct r as [[a|v]|]. Qed.

Lemma keeps_write p : keeps (write p).
Proof. intros g w. unfold write. cbn [fst snd]. by destruct (Write w p). Qed.

Lemma keeps_execute templ : keeps (execute templ).
Proof. intros g w. unfold execute. cbn [fst snd]. by destruct (Execute templ w g). Qed.

Lemma keeps_bind {A B} (m : M W A) (f : A → M W B) :
  keeps m → (∀ a, keeps (f a)) → keeps (m ≫= f).
Proof.
  intros Hm Hf g w. pose proof (Hm g w) as Hg.
  unfold mbind, M_bind. destruct (m (g, w)) as [[a| | ] [g1 w1]]; simpl in Hg; subst g1.
  - apply Hf.
  - reflexivity.
  - reflexivity.
Qed.

Lemma keeps_EmitObjectWriterCall fuel key argName argType :
  keeps (EmitObjectWriterCall h fuel key argName argType).
Proof.
  apply keeps_bind; [apply keeps_call|]. intros name.
  apply keeps_bind; [apply keeps_write|]. intros _. apply keeps_ret.
Qed.

Lemma keeps_EmitSendRequestMethod_range fuel index params :
  keeps (EmitSendRequestMethod_range h fuel index params).
Proof.
  revert index. induction params as [|param params IH]; intros index.
  - apply keeps_ret.
  - apply keeps_bind; [apply keeps_EmitObjectWriterCall | intros _; apply IH].
Qed.

Lemma keeps_StartWritingMethod opName opType argPrefix :
  keeps (StartWritingMethod opName opType argPrefix).
Proof.
  apply keeps_bind; [apply keeps_execute|].
  intros [e|]; [apply keeps_panic | apply keeps_ret].
Qed.

Lemma keeps_EndWritingMethod opName opType :
  keeps (EndWritingMethod opName opType).
Proof.
  apply keeps_bind; [apply keeps_execute|].
  intros [e|]; [apply keeps_panic | apply keeps_ret].
Qed.

Lemma EmitSendRequestMethod_generator (g : Generator) (w : W) fuel opName opType
    argPrefix :
  (EmitSendRequestMethod h fuel opName opType argPrefix (g, w)).2.1 =
    assigned opName opType g.
Proof.
  unfold EmitSendRequestMethod. rewrite EmitSendRequestMethod_assigns.
  match goal with |- (?k _).2.1 = _ => assert (Hk : keeps k); [|apply Hk] end.
  apply keeps_bind; [apply keeps_StartWritingMethod|]. intros _.
  apply keeps_bind.
  - repeat case_bool_decide.
    + destruct (InputTypes opType !! 0).
      * apply keeps_bind; [apply keeps_EmitObjectWriterCall|].
        intros _. apply keeps_ret.
      * apply keeps_panic.
    + apply keeps_bind.
      { apply keeps_bind; [apply keeps_write | intros _; apply keeps_ret]. }
      intros _. apply keeps_bind; [apply keeps_EmitSendRequestMethod_range|].
      intros _. apply keeps_bind; [apply keeps_write | intros _; apply keeps_ret].
    + apply keeps_ret.
  - intros _. apply keeps_bind; [apply keeps_EndWritingMethod|].
    intros _. apply keeps_ret.
Qed.

(** An emission starts from the generator's configuration only: what an
    earlier emission assigned is overwritten. *)
Lemma EmitSendRequestMethod_after_assigned (g : Generator) (w : W) fuel
    opName opType argPrefix opName0 opType0 :
  EmitSendRequestMethod h fuel opName opType argPrefix
    (assigned opName0 opType0 g, w) =
  EmitSendRequestMethod h fuel opName opType argPrefix (g, w).
Proof.
  unfold EmitSendRequestMethod. by rewrite !EmitSendRequestMethod_assigns.
Qed.

End OnWriter.

(** X5. The errors of the writes between the two templates are dropped: on
    any writer, when the header and the footer template execute and every
    input type has a writer, the emission returns nil, and the writer is
    left as the writes leave it, failed or not. *)
Theorem EmitSendRequestMethod_drops_write_errors {W : Type} `{Writer W}
    (h : heap) (g : Generator) (w w1 w3 : W) (opName : string)
    (opType : FunctionTypeData) (argPrefix : string) (ws : list string) :
  Execute StartWritingMethod_template w (assigned opName opType g) = (w1, None) →
  Forall2 (λ t name, writer_result h t (Return name)) (InputTypes opType) ws →
  Execute EndWritingMethod_template (write_all w1 (body_writes ws))
    (assigned opName opType g) = (w3, None) →
  ∃ fuel0, ∀ fuel, fuel0 ≤ fuel →
    EmitSendRequestMethod h fuel opName opType argPrefix (g, w) =
      (Done None, (assigned opName opType g, w3)).
Proof.
  intros Hh Hws Hf.
  destruct (writer_names_fuel h _ _ Hws) as [fuel0 Hfuel].
  exists fuel0. intros fuel Hle.
  exact (EmitSendRequestMethod_on_writer h g w w1 w3 fuel opName opType argPrefix
           ws None Hh (Hfuel fuel Hle) Hf).
Qed.

Lemma EmitSendRequestMethod_drops_write_errors_witness :
  (Write (picky "") "Write_string(body, arg0)").2 = Some "rejected" ∧
  ∃ fuel0, ∀ fuel, fuel0 ≤ fuel →
    EmitSendRequestMethod sample_heap fuel "SayHello" SayHello "arg"
      (sample_generator, picky "") =
      (Done None,
       (assigned "SayHello" SayHello sample_generator,
        picky (method_header "Client" "SayHello" "arg0 string" +:+
               method_footer "GET" "http://hello.world/"))).
Proof.
  split; [reflexivity|].
  apply (EmitSendRequestMethod_drops_write_errors sample_heap sample_generator
           (picky "")
           (picky (method_header "Client" "SayHello" "arg0 string"))
           (picky (method_header "Client" "SayHello" "arg0 string" +:+
                   method_footer "GET" "http://hello.world/"))
           "SayHello" SayHello "arg" ["Write_string"]).
  - vm_compute. reflexivity.
  - repeat constructor. exists 1. reflexivity.
  - vm_compute. reflexivity.
Defined.

(** X6. A failure of either template is a panic with the error of the
    failure, on any writer: of the header template at once, of the footer
    template once the header is written and every input type has a writer.
    The writer is left where the failing template left it. *)
Theorem EmitSendRequestMethod_template_failure {W : Type} `{Writer W}
    (h : heap) (g : Generator) (w : W) (opName : string)
    (opType : FunctionTypeData) (argPrefix : string) :
  (∀ w' e fuel,
     Execute StartWritingMethod_template w (assigned opName opType g) = (w', Some e) →
     EmitSendRequestMethod h fuel opName opType argPrefix (g, w) =
       (Panicked (TemplateError e), (assigned opName opType g, w'))) ∧
  (∀ w1 w3 e ws,
     Execute StartWritingMethod_template w (assigned opName opType g) = (w1, None) →
     Forall2 (λ t name, writer_result h t (Return name)) (InputTypes opType) ws →
     Execute EndWritingMethod_template (write_all w1 (body_writes ws))
       (assigned opName opType g) = (w3, Some e) →
     ∃ fuel0, ∀ fuel, fuel0 ≤ fuel →
       EmitSendRequestMethod h fuel opName opType argPrefix (g, w) =
         (Panicked (TemplateError e), (assigned opName opType g, w3))).
Proof.
  split.
  - intros w' e fuel Hx. by apply EmitSendRequestMethod_header_failure.
  - intros w1 w3 e ws Hh Hws Hf.
    destruct (writer_names_fuel h _ _ Hws) as [fuel0 Hfuel].
    exists fuel0. intros fuel Hle.
    exact (EmitSendRequestMethod_on_writer h g w w1 w3 fuel opName opType argPrefix
             ws (Some e) Hh (Hfuel fuel Hle) Hf).
Qed.

Lemma EmitSendRequestMethod_template_failure_witness :
  EmitSendRequestMethod sample_heap 1 "SayHello" SayHello "arg"
    (sample_generator, limited 3 "") =
    (Panicked (TemplateError "quota exceeded"),
     (assigned "SayHello" SayHello sample_generator,
      limited 0 (nl +:+ "func (svc *Client) Send"))) ∧
  ∃ fuel0, ∀ fuel, fuel0 ≤ fuel →
    EmitSendRequestMethod sample_heap fuel "SayHello" SayHello "arg"
      (sample_generator, limited 8 "") =
      (Panicked (TemplateError "quota exceeded"),
       (assigned "SayHello" SayHello sample_generator,
        limited 0 (method_header "Client" "SayHello" "arg0 string" +:+
                   "Write_string(body, arg0)"))).
Proof.
  split.
  - apply (proj1 (EmitSendRequestMethod_template_failure sample_heap
                    sample_generator (limited 3 "") "SayHello" SayHello "arg")).
    vm_compute. reflexivity.
  - apply (proj2 (EmitSendRequestMethod_template_failure sample_heap
                    sample_generator (limited 8 "") "SayHello" SayHello "arg")
             (limited 1 (method_header "Client" "SayHello" "arg0 string"))
             (limited 0 (method_header "Client" "SayHello" "arg0 string" +:+
                         "Write_string(body, arg0)"))
             "quota exceeded" ["Write_string"]).
    + vm_compute. reflexivity.
    + repeat constructor. exists 1. reflexivity.
    + vm_compute. reflexivity.
Defined.

(** X7. With no [ArgListMaker] (a generator that [NewGenerator] did not
    make) the emission panics in the header, whatever the operation, after the
    opening of the method up to the parameters has been written. *)
Theorem EmitSendRequestMethod_nil_ArgListMaker (h : heap) (g : Generator)
    (out : Buffer) (opName : string) (opType : FunctionTypeData)
    (argPrefix : string) :
  G.ArgListMaker g = None →
  ∃ v, ∀ fuel,
    EmitSendRequestMethod h fuel opName opType argPrefix (g, out) =
      (Panicked v,
       (assigned opName opType g,
        out +:+ nl +:+ "func (svc *" +:+ ClientName g +:+ ") Send" +:+ opName +:+
        "Request(")).
Proof.
  intros Hm. eexists. intros fuel.
  apply EmitSendRequestMethod_header_failure.
  unfold StartWritingMethod_template. cbn [Execute].
  change (G.ArgListMaker (assigned opName opType g)) with (G.ArgListMaker g).
  rewrite Hm. unfold Write, Buffer_Writer. cbv beta iota.
  change (ClientName (assigned opName opType g)) with (ClientName g).
  change (G.OpName (assigned opName opType g)) with opName.
  change (G.OpType (assigned opName opType g)) with (Some opType).
  cbv beta iota. by rewrite !append_assoc.
Qed.

Lemma EmitSendRequestMethod_nil_ArgListMaker_witness :
  ∃ v, ∀ fuel,
    EmitSendRequestMethod sample_heap fuel "SayHello" SayHello "arg"
      (G.mk ∅ (RegistryTypeSystem sample_registry) "" "" "" "Greeter" "" "Client"
            ∅ None None "" "" None "" "", "") =
      (Panicked v,
       (assigned "SayHello" SayHello
          (G.mk ∅ (RegistryTypeSystem sample_registry) "" "" "" "Greeter" "" "Client"
                ∅ None None "" "" None "" ""),
        "" +:+ nl +:+ "func (svc *" +:+ "GreeterClient" +:+ ") Send" +:+ "SayHello" +:+
        "Request(")).
Proof.
  apply (EmitSendRequestMethod_nil_ArgListMaker sample_heap
           (G.mk ∅ (RegistryTypeSystem sample_registry) "" "" "" "Greeter" "" "Client"
                 ∅ None None "" "" None "" "") "" "SayHello" SayHello "arg").
  reflexivity.
Defined.

(** X8. Whatever the outcome (return, panic, no end) and on any writer, the
    emission changes four fields of the generator and no other: the
    operation name and type are the ones given, the method is GET and the
    endpoint http://hello.world/; the binding table, the type system, the
    naming and the service stay as they were. *)
Theorem EmitSendRequestMethod_generator_fields {W : Type} `{Writer W}
    (h : heap) (g : Generator) (w : W) (fuel : nat) (opName : string)
    (opType : FunctionTypeData) (argPrefix : string) :
  let g' := (EmitSendRequestMethod h fuel opName opType argPrefix (g, w)).2.1 in
  G.OpName g' = opName ∧ G.OpType g' = Some opType ∧
  G.OpMethod g' = "GET" ∧ G.OpEndpoint g' = "http://hello.world/" ∧
  G.Bindings g' = G.Bindings g ∧ G.httpBindings g' = G.httpBindings g ∧
  G.TypeSystem g' = G.TypeSystem g ∧ G.TemplatesDir g' = G.TemplatesDir g ∧
  G.Package g' = G.Package g ∧ G.ClientPackageName g' = G.ClientPackageName g ∧
  G.ServiceName g' = G.ServiceName g ∧ G.ServiceType g' = G.ServiceType g ∧
  G.ClientPrefix g' = G.ClientPrefix g ∧ G.ClientSuffix g' = G.ClientSuffix g ∧
  G.ArgListMaker g' = G.ArgListMaker g ∧
  G.TransportRequest g' = G.TransportRequest g.
Proof.
  intros g'. subst g'. rewrite EmitSendRequestMethod_generator.
  split_and!; reflexivity.
Qed.

(** X9. Emissions do not build on one another: after the emission of one
    operation, whatever its outcome, the emission of a second behaves as on
    the generator from before the first. *)
Theorem EmitSendRequestMethod_twice {W : Type} `{Writer W} (h : heap)
    (g : Generator) (w : W) (fuel1 fuel2 : nat) (opName1 opName2 : string)
    (opType1 opType2 : FunctionTypeData) (argPrefix1 argPrefix2 : string) :
  let first := EmitSendRequestMethod h fuel1 opName1 opType1 argPrefix1 (g, w) in
  EmitSendRequestMethod h fuel2 opName2 opType2 argPrefix2 first.2 =
  EmitSendRequestMethod h fuel2 opName2 opType2 argPrefix2 (g, first.2.2).
Proof.
  intros first.
  pose proof (EmitSendRequestMethod_generator h g w fuel1 opName1 opType1 argPrefix1)
    as Hg.
  fold first in Hg. destruct first as [o [g1 w1]]. simpl in Hg. subst g1.
  apply EmitSendRequestMethod_after_assigned.
Qed.



(** ** The client class: failures of the template, and what success means *)

Section ClientClassMore.
Context {W : Type} `{Writer W}.
Variable h : heap.
Variable ParseFiles : string → error + Template.

(** [EmitClientClass] once the service has been found to be a record. *)
Lemma EmitClientClass_at_record (g : Generator) (w : W) pkgName serviceName d :
  deref h (GetType (G.TypeSystem g) pkgName serviceName) = Some (TDRecord d) →
  EmitClientClass h ParseFiles pkgName serviceName (g, w) =
    let g2 := G.set_ServiceType (Some d) (G.set_ServiceName serviceName g) in
    match ParseFiles (G.TemplatesDir g +:+ "client.gen") with
    | inl err => (Panicked (TemplateError err), (g2, w))
    | inr tmpl =>
      match Execute tmpl w g2 with
      | (w', Some e) => (Panicked (TemplateError e), (g2, w'))
      | (w', None) => (Done None, (g2, w'))
      end
    end.
Proof.
  intros Hd. unfold EmitClientClass. run_assign. run_self. cbn [fst snd].
  change (G.TypeSystem (G.set_ServiceName serviceName g)) with (G.TypeSystem g).
  change (G.TemplatesDir (G.set_ServiceName serviceName g)) with (G.TemplatesDir g).
  rewrite Hd, bind_ret. run_assign. cbv zeta.
  destruct (ParseFiles _) as [err|tmpl]; [reflexivity|].
  unfold execute, mbind, M_bind. cbn [fst snd].
  by destruct (Execute tmpl w _) as [w' [e|]].
Qed.

Lemma EmitClientClass_Done_inv (g g1 : Generator) (w w1 : W) pkgName serviceName
    err :
  EmitClientClass h ParseFiles pkgName serviceName (g, w) = (Done err, (g1, w1)) →
  err = None ∧
  ∃ d tmpl,
    deref h (GetType (G.TypeSystem g) pkgName serviceName) = Some (TDRecord d) ∧
    ParseFiles (G.TemplatesDir g +:+ "client.gen") = inr tmpl ∧
    g1 = G.set_ServiceType (Some d) (G.set_ServiceName serviceName g) ∧
    Execute tmpl w g1 = (w1, None).
Proof.
  intros Hrun.
  destruct (deref h (GetType (G.TypeSystem g) pkgName serviceName)) as [td|] eqn:Hd.
  - assert (Hcase : (∃ d, td = TDRecord d) ∨ (∀ d, td ≠ TDRecord d)).
    { destruct td; (left; by eexists) || (right; intros ?; discriminate). }
    destruct Hcase as [[d ->]|Hnot].
    + rewrite (EmitClientClass_at_record g w pkgName serviceName d Hd) in Hrun.
      cbv zeta in Hrun.
      destruct (ParseFiles _) as [e|tmpl] eqn:Hp; [discriminate|].
      destruct (Execute tmpl w _) as [w' [e|]] eqn:Hx; [discriminate|].
      injection Hrun as <- <- <-. split; [done|]. by exists d, tmpl.
    + rewrite (EmitClientClass_not_record h ParseFiles g w pkgName serviceName td Hd)
        in Hrun; [discriminate | exact Hnot].
  - by rewrite (EmitClientClass_nil h ParseFiles g w pkgName serviceName Hd) in Hrun.
Qed.

End ClientClassMore.

(** X11. When the service is a record, a failure of the template is a panic
    with its error, on any writer: nothing is written when [client.gen] does
    not parse, and what was rendered before the failure stays written when
    its execution fails.  The service name and type are assigned by then. *)
Theorem EmitClientClass_template_failure {W : Type} `{Writer W} (h : heap)
    (ParseFiles : string → error + Template) (g : Generator) (w : W)
    (pkgName serviceName : string) (d : RecordTypeData) :
  deref h (GetType (G.TypeSystem g) pkgName serviceName) = Some (TDRecord d) →
  let g2 := G.set_ServiceType (Some d) (G.set_ServiceName serviceName g) in
  (∀ err, ParseFiles (G.TemplatesDir g +:+ "client.gen") = inl err →
     EmitClientClass h ParseFiles pkgName serviceName (g, w) =
       (Panicked (TemplateError err), (g2, w))) ∧
  (∀ tmpl w' e, ParseFiles (G.TemplatesDir g +:+ "client.gen") = inr tmpl →
     Execute tmpl w g2 = (w', Some e) →
     EmitClientClass h ParseFiles pkgName serviceName (g, w) =
       (Panicked (TemplateError e), (g2, w'))).
Proof.
  intros Hd g2. split.
  - intros err Hp.
    rewrite (EmitClientClass_at_record h ParseFiles g w pkgName serviceName d Hd).
    cbv zeta. by rewrite Hp.
  - intros tmpl w' e Hp Hx.
    rewrite (EmitClientClass_at_record h ParseFiles g w pkgName serviceName d Hd).
    cbv zeta. rewrite Hp. fold g2. by rewrite Hx.
Qed.

Lemma EmitClientClass_template_failure_witness :
  EmitClientClass sample_heap sample_ParseFiles "pkg" "Greeter"
    (NewGenerator sample_Signature None (RegistryTypeSystem sample_registry) "gen/",
     "") =
    (Panicked (TemplateError "open gen/client.gen: no such file or directory"),
     (G.set_ServiceType (Some Greeter)
        (G.set_ServiceName "Greeter"
           (NewGenerator sample_Signature None (RegistryTypeSystem sample_registry)
              "gen/")), "")) ∧
  EmitClientClass sample_heap sample_ParseFiles "pkg" "Greeter"
    (sample_generator, limited 2 "") =
    (Panicked (TemplateError "quota exceeded"),
     (G.set_ServiceType (Some Greeter) (G.set_ServiceName "Greeter" sample_generator),
      limited 0 "package restclient")).
Proof.
  split.
  - apply (proj1 (EmitClientClass_template_failure sample_heap sample_ParseFiles
                    (NewGenerator sample_Signature None
                       (RegistryTypeSystem sample_registry) "gen/")
                    "" "pkg" "Greeter" Greeter eq_refl)).
    reflexivity.
  - apply (proj2 (EmitClientClass_template_failure sample_heap sample_ParseFiles
                    sample_generator (limited 2 "") "pkg" "Greeter" Greeter eq_refl)
             sample_client_gen).
    + reflexivity.
    + reflexivity.
Defined.

(** X12. What a return of [EmitClientClass] means, on any writer: the error
    is nil, the type registered under the name is itself a record (no alias of
    one), [client.gen] parsed and executed without error, and the generator
    holds the service name and the record as its service type, with nothing
    else changed. *)
Theorem EmitClientClass_return {W : Type} `{Writer W} (h : heap)
    (ParseFiles : string → error + Template) (g g1 : Generator) (w w1 : W)
    (pkgName serviceName : string) (err : option error) :
  EmitClientClass h ParseFiles pkgName serviceName (g, w) = (Done err, (g1, w1)) →
  err = None ∧
  ∃ d tmpl,
    deref h (GetType (G.TypeSystem g) pkgName serviceName) = Some (TDRecord d) ∧
    ParseFiles (G.TemplatesDir g +:+ "client.gen") = inr tmpl ∧
    g1 = G.set_ServiceType (Some d) (G.set_ServiceName serviceName g) ∧
    Execute tmpl w g1 = (w1, None).
Proof. apply EmitClientClass_Done_inv. Qed.

Lemma EmitClientClass_return_witness :
  ∃ d tmpl,
    deref sample_heap (GetType (G.TypeSystem sample_generator) "pkg" "Team")
      = Some (TDRecord d) ∧
    sample_ParseFiles (G.TemplatesDir sample_generator +:+ "client.gen") = inr tmpl ∧
    G.set_ServiceType (Some Team) (G.set_ServiceName "Team" sample_generator)
      = G.set_ServiceType (Some d) (G.set_ServiceName "Team" sample_generator) ∧
    Execute tmpl "" (G.set_ServiceType (Some Team)
                       (G.set_ServiceName "Team" sample_generator))
      = ("package restclient" +:+ nl +:+ nl +:+
         "type TeamClient struct {" +:+ nl +:+ "}" +:+ nl, None).
Proof.
  apply (EmitClientClass_return sample_heap sample_ParseFiles sample_generator
           (G.set_ServiceType (Some Team) (G.set_ServiceName "Team" sample_generator))
           "" ("package restclient" +:+ nl +:+ nl +:+
               "type TeamClient struct {" +:+ nl +:+ "}" +:+ nl)
           "pkg" "Team" None).
  reflexivity.
Defined.

(** X13. The class and its methods agree on the name: after [EmitClientClass]
    has returned for a service, the text every emission appends opens a
    method whose receiver is the client prefix, the service name and the
    client suffix, and whose name is [Send] + operation name + [Request]. *)
Theorem EmitSendRequestMethod_after_class {W : Type} `{Writer W} (h : heap)
    (ParseFiles : string → error + Template) (g g1 : Generator) (w w1 : W)
    (pkgName serviceName : string) (err : option error) :
  EmitClientClass h ParseFiles pkgName serviceName (g, w) = (Done err, (g1, w1)) →
  ∀ h' (out : Buffer) fuel opName opType argPrefix,
    ∃ x, (EmitSendRequestMethod h' fuel opName opType argPrefix (g1, out)).2.2 =
           out +:+ nl +:+ "func (svc *" +:+
           (G.ClientPrefix g +:+ serviceName +:+ G.ClientSuffix g) +:+
           ") Send" +:+ opName +:+ "Request(" +:+ x.
Proof.
  intros Hrun h' out fuel opName opType argPrefix.
  destruct (EmitClientClass_Done_inv h ParseFiles g g1 w w1 pkgName serviceName err Hrun)
    as (_ & d & tmpl & _ & _ & -> & _).
  destruct (EmitSendRequestMethod_opening h'
              (G.set_ServiceType (Some d) (G.set_ServiceName serviceName g))
              out fuel opName opType argPrefix) as [x Hx].
  exists x. etrans; [exact Hx|]. unfold method_opening, ClientName.
  cbn [G.ClientPrefix G.ClientSuffix G.ServiceName G.set_ServiceType G.set_ServiceName].
  by rewrite !append_assoc.
Qed.

Lemma EmitSendRequestMethod_after_class_witness :
  ∃ x, (EmitSendRequestMethod sample_heap 1 "Rename" (mkFunction [Some 0] []) "arg"
          (G.set_ServiceType (Some Team) (G.set_ServiceName "Team" sample_generator),
           "")).2.2 =
       "" +:+ nl +:+ "func (svc *" +:+ ("" +:+ "Team" +:+ "Client") +:+
       ") Send" +:+ "Rename" +:+ "Request(" +:+ x.
Proof.
  apply (EmitSendRequestMethod_after_class sample_heap sample_ParseFiles
           sample_generator
           (G.set_ServiceType (Some Team) (G.set_ServiceName "Team" sample_generator))
           "" ("package restclient" +:+ nl +:+ nl +:+
               "type TeamClient struct {" +:+ nl +:+ "}" +:+ nl)
           "pkg" "Team" None).
  reflexivity.
Defined.

(** ** The argument list of a longer signature *)

Lemma concat_app (sep : string) (l1 l2 : list string) :
  l1 ≠ [] → l2 ≠ [] →
  String.concat sep (l1 ++ l2) = String.concat sep l1 +:+ sep +:+ String.concat sep l2.
Proof.
  intros H1 H2. induction l1 as [|x l1 IH]; [done|].
  destruct l1 as [|y l1].
  - destruct l2 as [|z l2]; [done|]. reflexivity.
  - change ((x :: y :: l1) ++ l2) with (x :: y :: (l1 ++ l2)).
    rewrite !concat_cons_cons.
    change (y :: l1 ++ l2) with ((y :: l1) ++ l2).
    rewrite IH by done. by rewrite !append_assoc.
Qed.

(** X14. The argument list of a signature made of two non-empty parts is the
    list of the first part, a comma and a space, and the list of the second
    part, whose names, when asked for, go on counting where the first part
    ended. *)
Theorem ArgListMaker_app (Signature : ptr → string) (ts1 ts2 : list ptr) :
  ts1 ≠ [] → ts2 ≠ [] →
  ArgListMaker Signature (ts1 ++ ts2) false =
    ArgListMaker Signature ts1 false +:+ ", " +:+ ArgListMaker Signature ts2 false ∧
  ArgListMaker Signature (ts1 ++ ts2) true =
    ArgListMaker Signature ts1 true +:+ ", " +:+
    String.concat ", "
      (imap (λ i t, ("arg" +:+ pretty (length ts1 + i) +:+ " ") +:+ Signature t) ts2).
Proof.
  intros H1 H2. rewrite !ArgListMaker_comma_joined. unfold comma_joined.
  rewrite !imap_app.
  assert (Hne : ∀ (f : nat → ptr → string) (l : list ptr), l ≠ [] → imap f l ≠ []).
  { intros f [|x l]; [done|]. by rewrite imap_cons. }
  split.
  - rewrite concat_app by (by apply Hne). reflexivity.
  - rewrite concat_app by (by apply Hne). reflexivity.
Qed.

Lemma ArgListMaker_app_witness :
  ArgListMaker sample_Signature ([Some 4] ++ [Some 0; Some 4]) false =
    ArgListMaker sample_Signature [Some 4] false +:+ ", " +:+
    ArgListMaker sample_Signature [Some 0; Some 4] false ∧
  ArgListMaker sample_Signature ([Some 4] ++ [Some 0; Some 4]) true =
    ArgListMaker sample_Signature [Some 4] true +:+ ", " +:+ "arg1 string, arg2 *Team".
Proof.
  apply (ArgListMaker_app sample_Signature [Some 4] [Some 0; Some 4]); discriminate.
Defined.

(** ** The output types of an operation *)

Section Outputs.
Context {W : Type} `{Writer W}.
Variable h : heap.

Lemma blind_ret {A} (a : A) : blind (mret a : M W A).
Proof. by intros g g' w _. Qed.

Lemma blind_panic {A} v : blind (panic v : M W A).
Proof. by intros g g' w _. Qed.

Lemma blind_call {A} (r : option (Result A)) : blind (call r : M W A).
Proof. by destruct r as [[a|v]|]. Qed.

Lemma blind_write p : blind (write p).
Proof. intros g g' w _. unfold write. cbn [fst snd]. by destruct (Write w p). Qed.

Lemma blind_bind {A B} (m : M W A) (f : A → M W B) :
  keeps m → blind m → (∀ a, blind (f a)) → blind (m ≫= f).
Proof.
  intros Hk Hm Hf g g' w HR.
  destruct (Hm g g' w HR) as [Ho Hw].
  pose proof (Hk g w) as Hg. pose proof (Hk g' w) as Hg'.
  unfold mbind, M_bind.
  destruct (m (g, w)) as [o [g1 w1]], (m (g', w)) as [o' [g1' w1']].
  simpl in *. subst.
  destruct o' as [a| | ]; [by apply Hf | done | done].
Qed.

Lemma Execute_ext (templ : Template) (w : W) (g g' : Generator) :
  Forall (λ node, match node with
                  | TextNode _ => True
                  | ActionNode eval => eval g = eval g'
                  end) templ →
  Execute templ w g = Execute templ w g'.
Proof.
  intros Hall. revert w. induction Hall as [|node templ Hnode _ IH]; intros w.
  - reflexivity.
  - cbn [Execute]. destruct node as [s|eval].
    + destruct (Write w s) as [w' [e|]]; [reflexivity | apply IH].
    + rewrite Hnode. destruct (eval g') as [e|s]; [reflexivity|].
      destruct (Write w s) as [w' [e|]]; [reflexivity | apply IH].
Qed.

Lemma blind_execute_StartWritingMethod_template :
  blind (execute StartWritingMethod_template : M W (option error)).
Proof.
  intros g g' w (ins & outs & outs' & Ho & ->).
  unfold execute. cbn [fst snd].
  rewrite (Execute_ext StartWritingMethod_template w g
             (G.set_OpType (Some (mkFunction ins outs')) g)).
  - by destruct (Execute _ w _).
  - repeat constructor. cbn. by rewrite Ho.
Qed.

Lemma blind_execute_EndWritingMethod_template :
  blind (execute EndWritingMethod_template : M W (option error)).
Proof.
  intros g g' w (ins & outs & outs' & Ho & ->).
  unfold execute. cbn [fst snd].
  rewrite (Execute_ext EndWritingMethod_template w g
             (G.set_OpType (Some (mkFunction ins outs')) g)).
  - by destruct (Execute _ w _).
  - by repeat constructor.
Qed.

Lemma blind_EmitObjectWriterCall fuel key argName argType :
  blind (EmitObjectWriterCall h fuel key argName argType : M W (option error)).
Proof.
  apply blind_bind; [apply keeps_call | apply blind_call|]. intros name.
  apply blind_bind; [apply keeps_write | apply blind_write|].
  intros _. apply blind_ret.
Qed.

Lemma blind_EmitSendRequestMethod_range fuel index params :
  blind (EmitSendRequestMethod_range h fuel index params : M W unit).
Proof.
  revert index. induction params as [|param params IH]; intros index.
  - apply blind_ret.
  - apply blind_bind;
      [apply keeps_EmitObjectWriterCall | apply blind_EmitObjectWriterCall|].
    intros _. apply IH.
Qed.

Lemma keeps_arguments_part fuel opType : keeps (arguments_part h fuel opType).
Proof.
  unfold arguments_part. repeat case_bool_decide.
  - destruct (InputTypes opType !! 0).
    + apply keeps_bind; [apply keeps_EmitObjectWriterCall|].
      intros _. apply keeps_ret.
    + apply keeps_panic.
  - apply keeps_bind.
    { apply keeps_bind; [apply keeps_write | intros _; apply keeps_ret]. }
    intros _. apply keeps_bind; [apply keeps_EmitSendRequestMethod_range|].
    intros _. apply keeps_bind; [apply keeps_write | intros _; apply keeps_ret].
  - apply keeps_ret.
Qed.

Lemma blind_arguments_part fuel opType : blind (arguments_part h fuel opType).
Proof.
  unfold arguments_part. repeat case_bool_decide.
  - destruct (InputTypes opType !! 0).
    + apply blind_bind;
        [apply keeps_EmitObjectWriterCall | apply blind_EmitObjectWriterCall|].
      intros _. apply blind_ret.
    + apply blind_panic.
  - apply blind_bind.
    { apply keeps_bind; [apply keeps_write | intros _; apply keeps_ret]. }
    { apply blind_bind; [apply keeps_write | apply blind_write|].
      intros _. apply blind_ret. }
    intros _. apply blind_bind;
      [apply keeps_EmitSendRequestMethod_range
      | apply blind_EmitSendRequestMethod_range|].
    intros _. apply blind_bind; [apply keeps_write | apply blind_write|].
    intros _. apply blind_ret.
  - apply blind_ret.
Qed.

Lemma EmitSendRequestMethod_blind (g : Generator) (w : W) fuel opName
    ins outs outs' argPrefix :
  let run := EmitSendRequestMethod h fuel opName (mkFunction ins outs) argPrefix (g, w) in
  let run' := EmitSendRequestMethod h fuel opName (mkFunction ins outs') argPrefix (g, w) in
  run.1 = run'.1 ∧ run.2.2 = run'.2.2.
Proof.
  intros run run'. subst run run'.
  unfold EmitSendRequestMethod. rewrite !EmitSendRequestMethod_assigns.
  change (StartWritingMethod opName (mkFunction ins outs') "arg")
    with (StartWritingMethod (W:=W) opName (mkFunction ins outs) "arg").
  change (EndWritingMethod opName (mkFunction ins outs'))
    with (EndWritingMethod (W:=W) opName (mkFunction ins outs)).
  unfold NumInputs. cbn [InputTypes].
  match goal with |- (?k _).1 = _ ∧ _ => assert (Hk : blind k) end.
  { apply blind_bind.
    { apply keeps_StartWritingMethod. }
    { apply blind_bind;
        [apply keeps_execute | apply blind_execute_StartWritingMethod_template|].
      intros [e|]; [apply blind_panic | apply blind_ret]. }
    intros _. apply blind_bind.
    { apply (keeps_arguments_part fuel (mkFunction ins outs)). }
    { apply (blind_arguments_part fuel (mkFunction ins outs)). }
    intros _. apply blind_bind.
    { apply keeps_EndWritingMethod. }
    { apply blind_bind;
        [apply keeps_execute | apply blind_execute_EndWritingMethod_template|].
      intros [e|]; [apply blind_panic | apply blind_ret]. }
    intros _. apply blind_ret. }
  apply Hk. by exists ins, outs, outs'.
Qed.

End Outputs.

(** X15. The output types of an operation play no part in the emission: two
    operations with the same inputs have the same outcome and leave the
    writer the same, on any writer. *)
Theorem EmitSendRequestMethod_output_types {W : Type} `{Writer W} (h : heap)
    (g : Generator) (w : W) (fuel : nat) (opName : string)
    (opType opType' : FunctionTypeData) (argPrefix : string) :
  InputTypes opType = InputTypes opType' →
  (EmitSendRequestMethod h fuel opName opType argPrefix (g, w)).1 =
    (EmitSendRequestMethod h fuel opName opType' argPrefix (g, w)).1 ∧
  (EmitSendRequestMethod h fuel opName opType argPrefix (g, w)).2.2 =
    (EmitSendRequestMethod h fuel opName opType' argPrefix (g, w)).2.2.
Proof.
  destruct opType as [ins outs], opType' as [ins' outs']. simpl. intros <-.
  apply EmitSendRequestMethod_blind.
Qed.

Lemma EmitSendRequestMethod_output_types_witness :
  (EmitSendRequestMethod sample_heap 1 "SayHello" SayHello "arg"
     (sample_generator, "")).1 =
  (EmitSendRequestMethod sample_heap 1 "SayHello" (mkFunction [Some 0] [Some 5; Some 1])
     "arg" (sample_generator, "")).1 ∧
  (EmitSendRequestMethod sample_heap 1 "SayHello" SayHello "arg"
     (sample_generator, "")).2.2 =
  (EmitSendRequestMethod sample_heap 1 "SayHello" (mkFunction [Some 0] [Some 5; Some 1])
     "arg" (sample_generator, "")).2.2.
Proof.
  apply (EmitSendRequestMethod_output_types sample_heap sample_generator "" 1
           "SayHello" SayHello (mkFunction [Some 0] [Some 5; Some 1]) "arg").
  reflexivity.
Defined.

(** ** The API client *)





(** X17. [ConfirmRegistration] returns nil exactly when [SendRequest] reports
    no error: the status of the response is looked at only after an error,
    where 400 gives the error [Confirmation failed], another status but 200
    the status line and 200 the error of [SendRequest]; a nil response beside
    an error is dereferenced.  The error of building the request is
    dropped. *)
Theorem ConfirmRegistration_errors {Authenticator Request Registration : Type}
    (NewConfirmRegistrationRequest :
       option Registration → string → option Request * option error)
    (SendRequest : option Request → bool → option GoClient.Response * option error)
    (client : GoClient.ApiClient Authenticator)
    (registration : option Registration) (verificationCode : string) :
  let sent :=
    SendRequest (NewConfirmRegistrationRequest registration verificationCode).1 false in
  let result :=
    GoClient.ConfirmRegistration Authenticator Request Registration
      NewConfirmRegistrationRequest SendRequest client registration verificationCode in
  (result = Return None ↔ sent.2 = None) ∧
  (∀ resp e, sent = (Some resp, Some e) →
     result = Return (Some
       (if bool_decide (GoClient.StatusCode resp = 400%Z) then "Confirmation failed"
        else if bool_decide (GoClient.StatusCode resp ≠ 200%Z) then GoClient.Status resp
        else e))) ∧
  (∀ e, sent = (None, Some e) → result = Panic NilDereference).
Proof.
  intros sent result. subst sent result. unfold GoClient.ConfirmRegistration.
  destruct (NewConfirmRegistrationRequest registration verificationCode) as [req err0].
  cbn [fst]. destruct (SendRequest req false) as [resp [e|]]; cbn [snd].
  - split_and!.
    + destruct resp as [resp|]; [|done]. repeat case_bool_decide; done.
    + intros resp' e' [= -> ->]. repeat case_bool_decide; done.
    + by intros e' [= -> ->].
  - split_and!; done.
Qed.

Lemma ConfirmRegistration_errors_witness :
  GoClient.ConfirmRegistration unit string string
    (λ _ code, (Some code, Some "could not build the request"))
    (λ req _, (Some (GoClient.mkResponse 500 "500 Internal Server Error"), None))
    (GoClient.NewApiClient unit "http://relay.test") None "1234"
    = Return None ∧
  GoClient.ConfirmRegistration unit string string
    (λ _ code, (Some code, None))
    (λ req _, (Some (GoClient.mkResponse 404 "404 Not Found"), Some "bad status"))
    (GoClient.NewApiClient unit "http://relay.test") None "1234"
    = Return (Some "404 Not Found").
Proof.
  split.
  - apply (proj1 (ConfirmRegistration_errors
                    (λ _ code, (Some code, Some "could not build the request"))
                    (λ (req : option string) (_ : bool),
                       (Some (GoClient.mkResponse 500 "500 Internal Server Error"),
                        @None error))
                    (GoClient.NewApiClient unit "http://relay.test") None "1234")).
    reflexivity.
  - apply (proj1 (proj2 (ConfirmRegistration_errors
                    (λ _ code, (Some code, None))
                    (λ (req : option string) (_ : bool),
                       (Some (GoClient.mkResponse 404 "404 Not Found"),
                        Some "bad status"))
                    (GoClient.NewApiClient unit "http://relay.test") None "1234"))
             (GoClient.mkResponse 404 "404 Not Found") "bad status").
    reflexivity.
Defined.

(** X18. [GetChannels] never returns data: whenever it returns, the channels
    and the members are nil, and a nil error means that [SendRequest]
    reported no error and a response with status 200.  The ordering asked for
    plays no part. *)
Theorem GetChannels_returns_no_data
    {Authenticator Request Body Team Channel ChannelMember : Type}
    (MakeRequest : string → string → gmap string string → option Body →
                   option Request * option error)
    (AuthenticateRequest : Authenticator → option Request → option Request)
    (SendRequest : option Request → bool → option GoClient.Response * option error)
    (TeamId : Team → string)
    (client : GoClient.ApiClient Authenticator) (team : option Team)
    (owner : string) (participants : list string) (matchall : bool)
    (order_by : string) :
  let GetChannels :=
    GoClient.GetChannels Authenticator Request Body Team Channel ChannelMember
      MakeRequest AuthenticateRequest SendRequest TeamId client team owner
      participants matchall in
  (∀ channels members err,
     GetChannels order_by = Return (channels, members, err) →
     channels = None ∧ members = None ∧
     (err = None →
        ∃ req resp, SendRequest req true = (Some resp, None) ∧
                    GoClient.StatusCode resp = 200%Z)) ∧
  (∀ order_by', GetChannels order_by' = GetChannels order_by).
Proof.
  intros GetChannels. subst GetChannels. split; [|reflexivity].
  intros channels members err. unfold GoClient.GetChannels.
  destruct team as [team|]; [|discriminate].
  destruct (GoClient.MakeAuthRequest _ _ _ _ _ _ _ _ _ _) as [req err0].
  destruct (SendRequest req true) as [resp [e|]] eqn:Hsent.
  - by intros [= <- <- <-].
  - destruct resp as [resp|]; [|discriminate].
    case_bool_decide as Hstatus.
    + by intros [= <- <- <-].
    + intros [= <- <- <-]. split_and!; [done..|]. intros _.
      exists req, resp. split; [done|].
      by destruct (decide (GoClient.StatusCode resp = 200%Z)).
Qed.

Lemma GetChannels_returns_no_data_witness :
  GoClient.GetChannels unit string unit nat unit unit
    (λ method url params body, (Some url, None))
    (λ auth req, req)
    (λ (req : option string) (_ : bool),
       (Some (GoClient.mkResponse 200 "200 OK"), @None error))
    (λ team : nat, pretty team)
    (GoClient.NewApiClient unit "http://relay.test") (Some 7)
    "ann" ["bob"; "cy"] true "name"
    = Return (None, None, None) ∧
  (@None (list unit) = None ∧ @None (list (list unit)) = None ∧
   (@None error = None →
    ∃ req resp,
      (λ (req : option string) (_ : bool),
         (Some (GoClient.mkResponse 200 "200 OK"), @None error)) req true
        = (Some resp, None) ∧
      GoClient.StatusCode resp = 200%Z)).
Proof.
  split; [reflexivity|].
  apply (proj1 (GetChannels_returns_no_data (Authenticator := unit) (Body := unit)
                  (Channel := unit) (ChannelMember := unit)
                  (λ method url params body, (Some url, None))
                  (λ auth req, req)
                  (λ (req : option string) (_ : bool),
                     (Some (GoClient.mkResponse 200 "200 OK"), @None error))
                  (λ team : nat, pretty team)
                  (GoClient.NewApiClient unit "http://relay.test") (Some 7)
                  "ann" ["bob"; "cy"] true "name")
           None None None).
  reflexivity.
Defined.
